(** * otelx: provider lifecycle, no-op fallback and metric wrappers

    A shallow embedding of the Go package [otelx] (files otelx.go,
    middleware.go, http.go, the gRPC interceptors and the [IsEnabled]
    helper).  Package-level variables become the fields of [State]; every
    function that reads or writes them is a computation in the monad [M],
    which threads the state, collects the observable events (dials, log
    lines, instrument calls) and may end in a Go panic.  The SDK, the
    exporters, gRPC and the operating system are outside the package: what
    they answer is read from a [World] record. *)

From Stdlib Require Import ZArith QArith Ascii String List Bool Lia.
From stdpp Require Import base option gmap strings pretty.
Import ListNotations.

Local Open Scope string_scope.
Local Open Scope list_scope.
Local Open Scope Z_scope.

(* ===================================================================== *)
(** ** Go values used by the package *)

(** A Go [error] value.  [errors_New] is [errors.New(msg)], [fmt_Errorf_w]
    is [fmt.Errorf(prefix + "%w", cause)], [status_Error] is an error made
    by gRPC's [status.Error(code, msg)]. *)
Inductive error : Type :=
| errors_New (msg : string)
| fmt_Errorf_w (prefix : string) (cause : error)
| status_Error (code : Z) (msg : string).

(** A Go pair [(value, err)] of which exactly one side is meaningful. *)
Inductive goResult (A : Type) : Type :=
| GoOk (a : A)
| GoErr (e : error).
Arguments GoOk {A} a.
Arguments GoErr {A} e.

Definition newline : string := String "010"%char EmptyString.

Definition codes_OK : Z := 0.
Definition codes_Unknown : Z := 2.

(** [err.Error()]. *)
Fixpoint Error (e : error) : string :=
  match e with
  | errors_New msg => msg
  | fmt_Errorf_w prefix cause => prefix +:+ Error cause
  | status_Error code msg =>
      "rpc error: code = " +:+ pretty code +:+ " desc = " +:+ msg
  end.

(** The status code carried by a non-nil error: gRPC's [status.Convert]
    followed by [Code()].  An error that is (or wraps) a status error has
    that status' code, any other error is [codes.Unknown]. *)
Fixpoint status_Convert_Code (e : error) : Z :=
  match e with
  | errors_New _ => codes_Unknown
  | fmt_Errorf_w _ cause => status_Convert_Code cause
  | status_Error code _ => code
  end.

(** [status.Code(err)]: a nil error is [codes.OK]. *)
Definition status_Code (err : option error) : Z :=
  match err with
  | None => codes_OK
  | Some e => status_Convert_Code e
  end.

(** *[grpc.ClientConn]: a pointer, compared by identity. *)
Definition Conn : Type := nat.

Inductive attrValue : Type :=
| attribute_String (s : string)
| attribute_Int (n : Z).

Definition KeyValue : Type := (string * attrValue)%type.

Record Int64Counter : Type := mkCounter {
  ic_name : string;
  ic_description : string
}.

Record Float64Histogram : Type := mkHistogram {
  fh_name : string;
  fh_description : string;
  fh_boundaries : list Q
}.

(** The struct [Metrics]; a field that is the nil interface is [None]. *)
Record Metrics : Type := mkMetrics {
  RequestCounter : option Int64Counter;
  RequestHistogram : option Float64Histogram
}.

Record TraceExporter : Type := mkTraceExporter { te_conn : Conn }.
Record MetricExporter : Type := mkMetricExporter { me_conn : Conn }.

Definition Resource : Type := list KeyValue.

Inductive Sampler : Type := AlwaysSample.
Inductive SpanProcessor : Type := BatchSpanProcessor (exp : TraceExporter).
Inductive Reader : Type := PeriodicReader (exp : MetricExporter).
Inductive Propagator : Type := Baggage | TraceContext.

Record TracerProvider : Type := mkTracerProvider {
  tp_sampler : Sampler;
  tp_resource : Resource;
  tp_processor : SpanProcessor
}.

Record MeterProvider : Type := mkMeterProvider {
  mp_reader : Reader;
  mp_resource : Resource
}.

(** A [trace.Tracer]: the one of the no-op provider, or one of an SDK
    provider. *)
Inductive Tracer : Type :=
| NoopTracer (name : string)
| SdkTracer (tp : TracerProvider) (name : string).

Inductive Span : Type :=
| NoopSpan
| SdkSpan (tp : TracerProvider) (name : string).

Inductive Ctx : Type :=
| ctx_Background
| ctx_WithSpan (parent : Ctx) (sp : Span).

(* ===================================================================== *)
(** ** The world outside the package *)

Record World : Type := mkWorld {
  (** the process environment ([os.Getenv], [os.LookupEnv]) *)
  environ : gmap string string;
  (** [strings.Map(unicode.ToLower, s)], used by [strings.ToLower] on a
      string that is not pure ASCII *)
  unicode_Map_ToLower : string -> string;
  (** [grpc.NewClient(endpoint, ...)] *)
  grpc_NewClient : string -> goResult Conn;
  (** does [otlptracegrpc.New] fail on this connection? *)
  otlptracegrpc_New : Conn -> option error;
  (** does [otlpmetricgrpc.New] fail on this connection? *)
  otlpmetricgrpc_New : Conn -> option error;
  (** what [resource.WithHost()] detects, or why [resource.New] fails *)
  resource_WithHost : goResult (list KeyValue);
  (** does [meter.Int64Counter(name, ...)] fail? *)
  meter_Int64Counter : string -> option error;
  (** does [meter.Float64Histogram(name, ...)] fail? *)
  meter_Float64Histogram : string -> option error;
  (** the error of [tp.Shutdown(ctx)] and of [mp.Shutdown(ctx)] *)
  tp_Shutdown : option error;
  mp_Shutdown : option error
}.

Definition os_LookupEnv (W : World) (key : string) : option string :=
  environ W !! key.

Definition os_Getenv (W : World) (key : string) : string :=
  default "" (os_LookupEnv W key).

(** *** [strings.ToLower] *)

Definition byte_val (c : ascii) : N := N_of_ascii c.

(** [c < utf8.RuneSelf] *)
Definition isASCII_byte (c : ascii) : bool := (byte_val c <? 128)%N.

(** ['A' <= c && c <= 'Z'] *)
Definition isUpper_byte (c : ascii) : bool :=
  ((65 <=? byte_val c) && (byte_val c <=? 90))%N.

(** [c += 'a' - 'A'] for an upper-case byte *)
Definition lower_byte (c : ascii) : ascii :=
  if isUpper_byte c then ascii_of_N (byte_val c + 32) else c.

Fixpoint isASCII (s : string) : bool :=
  match s with
  | EmptyString => true
  | String c rest => isASCII_byte c && isASCII rest
  end.

Fixpoint lower_ascii (s : string) : string :=
  match s with
  | EmptyString => EmptyString
  | String c rest => String (lower_byte c) (lower_ascii rest)
  end.

Definition strings_ToLower (W : World) (s : string) : string :=
  if isASCII s then lower_ascii s else unicode_Map_ToLower W s.

(* ===================================================================== *)
(** ** Process state, events and the monad *)

(** The package variables [metrics], [tracer], [grpcConnection], the
    globals of package [otel] that the setup functions write, and the
    wall clock in nanoseconds. *)
Record State : Type := mkState {
  metrics : Metrics;
  tracer : option Tracer;
  grpcConnection : option Conn;
  otel_TracerProvider : option TracerProvider;
  otel_TextMapPropagator : list Propagator;
  otel_MeterProvider : option MeterProvider;
  clock : Z
}.

Definition set_metrics (m : Metrics) (s : State) : State :=
  mkState m (tracer s) (grpcConnection s) (otel_TracerProvider s)
          (otel_TextMapPropagator s) (otel_MeterProvider s) (clock s).

Definition set_tracer (t : option Tracer) (s : State) : State :=
  mkState (metrics s) t (grpcConnection s) (otel_TracerProvider s)
          (otel_TextMapPropagator s) (otel_MeterProvider s) (clock s).

Definition set_grpcConnection (c : option Conn) (s : State) : State :=
  mkState (metrics s) (tracer s) c (otel_TracerProvider s)
          (otel_TextMapPropagator s) (otel_MeterProvider s) (clock s).

Definition set_otel_TracerProvider (tp : option TracerProvider) (s : State)
  : State :=
  mkState (metrics s) (tracer s) (grpcConnection s) tp
          (otel_TextMapPropagator s) (otel_MeterProvider s) (clock s).

Definition set_otel_TextMapPropagator (p : list Propagator) (s : State)
  : State :=
  mkState (metrics s) (tracer s) (grpcConnection s) (otel_TracerProvider s)
          p (otel_MeterProvider s) (clock s).

Definition set_otel_MeterProvider (mp : option MeterProvider) (s : State)
  : State :=
  mkState (metrics s) (tracer s) (grpcConnection s) (otel_TracerProvider s)
          (otel_TextMapPropagator s) mp (clock s).

Definition set_clock (t : Z) (s : State) : State :=
  mkState (metrics s) (tracer s) (grpcConnection s) (otel_TracerProvider s)
          (otel_TextMapPropagator s) (otel_MeterProvider s) t.

(** The state of a process that has just started: every package variable
    holds its zero value. *)
Definition initial_state : State :=
  mkState (mkMetrics None None) None None None [] None 0.

(** What the package does to the outside.  [EvDial endpoint r] is a call
    of [grpc.NewClient] on [endpoint] that answered [r]. *)
Inductive event : Type :=
| EvDial (endpoint : string) (r : goResult Conn)
| EvPrintln (line : string)
| EvLog (line : string)
| EvAdd (c : Int64Counter) (incr : Z) (attrs : list KeyValue)
| EvRecord (h : Float64Histogram) (seconds : Q) (attrs : list KeyValue)
| EvExportSpan (conn : Conn) (name : string)
| EvTracerShutdown (tp : TracerProvider)
| EvMeterShutdown (mp : MeterProvider).

(** A method called on a nil interface value. *)
Inductive panic : Type :=
| NilCounterAdd
| NilHistogramRecord.

Inductive outcome (A : Type) : Type :=
| Returned (a : A)
| Panicked (p : panic).
Arguments Returned {A} a.
Arguments Panicked {A} p.

Definition M (A : Type) : Type := State -> outcome A * State * list event.

Definition ret {A} (a : A) : M A := fun s => (Returned a, s, []).

Definition bind {A B} (m : M A) (k : A -> M B) : M B :=
  fun s =>
    match m s with
    | (Returned a, s1, t1) =>
        match k a s1 with
        | (r, s2, t2) => (r, s2, t1 ++ t2)
        end
    | (Panicked p, s1, t1) => (Panicked p, s1, t1)
    end.

Definition get : M State := fun s => (Returned s, s, []).
Definition modify (f : State -> State) : M unit := fun s => (Returned tt, f s, []).
Definition emit (e : event) : M unit := fun s => (Returned tt, s, [e]).
Definition throw {A} (p : panic) : M A := fun s => (Panicked p, s, []).

Declare Scope go_scope.
Delimit Scope go_scope with go.
Notation "x <- m ;; k" := (bind m (fun x => k))
  (at level 100, m at next level, right associativity) : go_scope.
Notation "m ;;; k" := (bind m (fun _ => k))
  (at level 100, right associativity) : go_scope.
Local Open Scope go_scope.

Definition log_Printf (line : string) : M unit := emit (EvLog line).
Definition fmt_Println (line : string) : M unit := emit (EvPrintln line).

(* ===================================================================== *)
(** ** otelx.go *)

Definition msg_disabled : string := "tracing disabled via OTEL_ENABLE=false".
Definition msg_endpoint : string := "OTEL_COLLECTOR_ENDPOINT not set".
Definition msg_dial : string := "failed to create gRPC connection to collector: ".

Definition initCollector (W : World) : M (goResult Conn) :=
  s <- get ;;
  match grpcConnection s with
  | Some conn => ret (GoOk conn)
  | None =>
      if negb (strings_ToLower W (os_Getenv W "OTEL_ENABLE") =? "true")%string
      then ret (GoErr (errors_New msg_disabled))
      else
        let otlpEndpoint := os_Getenv W "OTEL_COLLECTOR_ENDPOINT" in
        if (otlpEndpoint =? "")%string
        then ret (GoErr (errors_New msg_endpoint))
        else
          let dialed := grpc_NewClient W otlpEndpoint in
          emit (EvDial otlpEndpoint dialed) ;;;
          match dialed with
          | GoErr err => ret (GoErr (fmt_Errorf_w msg_dial err))
          | GoOk conn =>
              fmt_Println "grpc connection success" ;;;
              modify (set_grpcConnection (Some conn)) ;;;
              ret (GoOk conn)
          end
  end.

Definition newResource (W : World) (service : string) : goResult Resource :=
  match resource_WithHost W with
  | GoErr err => GoErr err
  | GoOk host =>
      GoOk ([ ("service.name", attribute_String service);
              ("service.version", attribute_String (os_Getenv W "SERVICE_VERSION"));
              ("deployment.environment", attribute_String (os_Getenv W "ENV")) ]
            ++ host)
  end.

(** The closures the setup functions return: [func() {}], the tracer
    provider's [cleanup] and the meter provider's [shutdown]. *)
Inductive cleanupFn : Type :=
| cleanup_empty
| cleanup_tracer (tp : TracerProvider)
| cleanup_meter (mp : MeterProvider).

Definition call_cleanup (W : World) (f : cleanupFn) : M unit :=
  match f with
  | cleanup_empty => ret tt
  | cleanup_tracer tp =>
      emit (EvTracerShutdown tp) ;;;
      match tp_Shutdown W with
      | Some err => log_Printf ("error shutting down tracer provider: " +:+ Error err)
      | None => ret tt
      end
  | cleanup_meter mp =>
      emit (EvMeterShutdown mp) ;;;
      match mp_Shutdown W with
      | Some err => log_Printf ("error shutting down meter provider: " +:+ Error err)
      | None => ret tt
      end
  end.

Definition NewTraceProvider (W : World) (service : string)
  : M (option TracerProvider * cleanupFn) :=
  let clean := cleanup_empty in
  r <- initCollector W ;;
  match r with
  | GoErr err =>
      log_Printf ("failed to grpc connection: " +:+ Error err +:+ newline) ;;;
      modify (set_tracer (Some (NoopTracer "noop"))) ;;;
      ret (None, clean)
  | GoOk conn =>
      match otlptracegrpc_New W conn with
      | Some err =>
          log_Printf ("failed to create exporter: " +:+ Error err +:+ newline) ;;;
          ret (None, clean)
      | None =>
          let traceExporter := mkTraceExporter conn in
          match newResource W service with
          | GoErr err =>
              log_Printf ("failed to create resource: " +:+ Error err +:+ newline) ;;;
              ret (None, clean)
          | GoOk res =>
              let bsm := BatchSpanProcessor traceExporter in
              let tp := mkTracerProvider AlwaysSample res bsm in
              modify (set_otel_TracerProvider (Some tp)) ;;;
              modify (set_otel_TextMapPropagator [Baggage; TraceContext]) ;;;
              modify (set_tracer (Some (SdkTracer tp service))) ;;;
              ret (Some tp, cleanup_tracer tp)
          end
      end
  end.

(** The literals of [api.WithExplicitBucketBoundaries], as exact decimal
    fractions. *)
Definition bucket_boundaries : list Q :=
  [ 1#10; 2#10; 3#10; 4#10; 5#10;
    6#10; 7#10; 8#10; 9#10; 1#1;
    2#1; 5#1 ]%Q.

Definition NewMeterProvider (W : World) (service : string) : M cleanupFn :=
  let emptyCleanup := cleanup_empty in
  r <- initCollector W ;;
  match r with
  | GoErr err =>
      log_Printf ("failed to grpc connection: " +:+ Error err +:+ newline) ;;;
      ret emptyCleanup
  | GoOk conn =>
      match otlpmetricgrpc_New W conn with
      | Some err =>
          log_Printf ("failed to grpc connection: " +:+ Error err +:+ newline) ;;;
          ret emptyCleanup
      | None =>
          let metricExporter := mkMetricExporter conn in
          match newResource W service with
          | GoErr err =>
              log_Printf ("failed to create resource: " +:+ Error err +:+ newline) ;;;
              ret emptyCleanup
          | GoOk res =>
              let mp := mkMeterProvider (PeriodicReader metricExporter) res in
              modify (set_otel_MeterProvider (Some mp)) ;;;
              match meter_Int64Counter W "http_requests_total" with
              | Some err =>
                  log_Printf ("failed to create counter: " +:+ Error err +:+ newline) ;;;
                  ret emptyCleanup
              | None =>
                  let counter :=
                    mkCounter "http_requests_total" "Total number of HTTP requests" in
                  match meter_Float64Histogram W "http_request_duration_seconds" with
                  | Some err =>
                      log_Printf ("failed to create histogram: " +:+ Error err +:+ newline) ;;;
                      ret emptyCleanup
                  | None =>
                      let histogram :=
                        mkHistogram "http_request_duration_seconds"
                                    "HTTP request duration in seconds"
                                    bucket_boundaries in
                      modify (set_metrics (mkMetrics (Some counter) (Some histogram))) ;;;
                      ret (cleanup_meter mp)
                  end
              end
          end
      end
  end.

(** [trace.SpanStartOption] values are passed through unchanged. *)
Inductive SpanStartOption : Type :=
| trace_WithAttributes (attrs : list KeyValue).

(** [t.Start(ctx, name, opts...)]: the span and the context carrying it.
    The no-op tracer ignores the name and hands out a span that records
    nothing. *)
Definition tracer_Start (t : Tracer) (ctx : Ctx) (name : string)
                        (opts : list SpanStartOption) : Ctx * Span :=
  match t with
  | NoopTracer _ => (ctx_WithSpan ctx NoopSpan, NoopSpan)
  | SdkTracer tp _ => (ctx_WithSpan ctx (SdkSpan tp name), SdkSpan tp name)
  end.

(** [span.End()]: a span of an SDK provider goes to the provider's batch
    processor, which exports it over the collector connection; a no-op
    span does nothing. *)
Definition span_End (sp : Span) : M unit :=
  match sp with
  | NoopSpan => ret tt
  | SdkSpan tp name =>
      match tp_processor tp with
      | BatchSpanProcessor exp => emit (EvExportSpan (te_conn exp) name)
      end
  end.

(** What [runtime.Caller(1)] and [runtime.FuncForPC] report. *)
Record Caller : Type := mkCaller {
  fn_Name : string;
  caller_line : Z
}.

Definition StartSpan (caller : Caller) (ctx : Ctx) (opts : list SpanStartOption)
  : M (Ctx * Span) :=
  s <- get ;;
  match tracer s, grpcConnection s with
  | Some t, Some _ =>
      ret (tracer_Start t ctx (fn_Name caller +:+ ":" +:+ pretty (caller_line caller)) opts)
  | _, _ =>
      let noopTracer := NoopTracer "noop" in
      ret (tracer_Start noopTracer ctx "noop" opts)
  end.

(** [IsEnabled] *)
Definition IsEnabled (W : World) : bool :=
  let ok := bool_decide (is_Some (os_LookupEnv W "OTEL_COLLECTOR_ENDPOINT")) in
  (os_Getenv W "OTEL_ENABLE" =? "true")%string && ok.

(* ===================================================================== *)
(** ** middleware.go *)

Definition http_StatusOK : Z := 200.

(** The server's own [http.ResponseWriter]: the status line is committed
    once, by the first [WriteHeader] or implicitly by the first [Write];
    later [WriteHeader] calls do not change it. *)
Record http_ResponseWriter : Type := mkHttpWriter {
  committed : option Z;
  body : string
}.

Definition http_WriteHeader (code : Z) (w : http_ResponseWriter)
  : http_ResponseWriter :=
  match committed w with
  | Some _ => w
  | None => mkHttpWriter (Some code) (body w)
  end.

Definition http_Write (data : string) (w : http_ResponseWriter)
  : http_ResponseWriter :=
  let w1 := http_WriteHeader http_StatusOK w in
  mkHttpWriter (committed w1) (body w1 +:+ data).

Record responseWriter : Type := mkResponseWriter {
  ResponseWriter : http_ResponseWriter;
  statusCode : Z
}.

Definition NewResponseWriter (w : http_ResponseWriter) : responseWriter :=
  mkResponseWriter w http_StatusOK.

Definition WriteHeader (code : Z) (rw : responseWriter) : responseWriter :=
  mkResponseWriter (http_WriteHeader code (ResponseWriter rw)) code.

(** [Write] is promoted from the embedded writer: the tracked status is
    not touched. *)
Definition Write (data : string) (rw : responseWriter) : responseWriter :=
  mkResponseWriter (http_Write data (ResponseWriter rw)) (statusCode rw).

Definition Status (rw : responseWriter) : Z := statusCode rw.

Record Request : Type := mkRequest {
  req_Method : string;
  req_URL_Path : string;
  req_Context : Ctx
}.

(** What a handler does with the writer it is given, in order; [OpDo] is
    any other work of the handler (it may take time or touch the process
    state). *)
Inductive handlerOp : Type :=
| OpWriteHeader (code : Z)
| OpWrite (data : string)
| OpDo (work : M unit).

Definition http_Handler : Type := list handlerOp.

Fixpoint ServeHTTP (next : http_Handler) (rw : responseWriter) : M responseWriter :=
  match next with
  | [] => ret rw
  | OpWriteHeader code :: rest => ServeHTTP rest (WriteHeader code rw)
  | OpWrite data :: rest => ServeHTTP rest (Write data rw)
  | OpDo work :: rest => work ;;; ServeHTTP rest rw
  end.

Definition time_Now : M Z := s <- get ;; ret (clock s).

(** [d.Seconds()] for a duration of [d] nanoseconds. *)
Definition Duration_Seconds (d : Z) : Q :=
  (inject_Z (Z.quot d 1000000000) + (Z.rem d 1000000000 # 1000000000))%Q.

Definition time_Since (start : Z) : M Z := s <- get ;; ret (clock s - start).

(** [c.Add(ctx, incr, metric.WithAttributes(attrs...))] on the interface
    value [c]. *)
Definition counter_Add (c : option Int64Counter) (incr : Z) (attrs : list KeyValue)
  : M unit :=
  match c with
  | None => throw NilCounterAdd
  | Some c => emit (EvAdd c incr attrs)
  end.

(** [h.Record(ctx, v, metric.WithAttributes(attrs...))] on the interface
    value [h]. *)
Definition histogram_Record (h : option Float64Histogram) (v : Q)
                            (attrs : list KeyValue) : M unit :=
  match h with
  | None => throw NilHistogramRecord
  | Some h => emit (EvRecord h v attrs)
  end.

Definition http_attrs (r : Request) (status : Z) : list KeyValue :=
  [ ("method", attribute_String (req_Method r));
    ("path", attribute_String (req_URL_Path r));
    ("status_code", attribute_Int status) ].

(** The handler function built by [MetricsMiddleware(next)], applied to a
    writer and a request; it returns the server's writer as the handler
    left it. *)
Definition MetricsMiddleware (next : http_Handler) (w : http_ResponseWriter)
                             (r : Request) : M http_ResponseWriter :=
  let rw := NewResponseWriter w in
  start <- time_Now ;;
  rw <- ServeHTTP next rw ;;
  d <- time_Since start ;;
  let duration := Duration_Seconds d in
  s <- get ;;
  counter_Add (RequestCounter (metrics s)) 1 (http_attrs r (Status rw)) ;;;
  s <- get ;;
  histogram_Record (RequestHistogram (metrics s)) duration (http_attrs r (Status rw)) ;;;
  ret (ResponseWriter rw).

(* ===================================================================== *)
(** ** The gRPC interceptors *)

Record UnaryServerInfo : Type := mkUnaryInfo { FullMethod : string }.
Record StreamServerInfo : Type := mkStreamInfo { stream_FullMethod : string }.
Record ServerStream : Type := mkServerStream { ss_Context : Ctx }.

Definition UnaryHandler (Req Resp : Type) : Type :=
  Ctx -> Req -> M (Resp * option error).

Definition StreamHandler (Srv : Type) : Type :=
  Srv -> ServerStream -> M (option error).

Definition rpc_attrs (method : string) (code : Z) : list KeyValue :=
  [ ("method", attribute_String method);
    ("status_code", attribute_Int code) ].

Definition UnaryServerMetricsInterceptor {Req Resp : Type}
    (ctx : Ctx) (req : Req) (info : UnaryServerInfo)
    (handler : UnaryHandler Req Resp) : M (Resp * option error) :=
  start <- time_Now ;;
  re <- handler ctx req ;;
  let '(resp, err) := re in
  d <- time_Since start ;;
  let duration := Duration_Seconds d in
  let code := status_Code err in
  s <- get ;;
  counter_Add (RequestCounter (metrics s)) 1 (rpc_attrs (FullMethod info) code) ;;;
  s <- get ;;
  histogram_Record (RequestHistogram (metrics s)) duration
                   (rpc_attrs (FullMethod info) code) ;;;
  ret (resp, err).

Definition StreamServerMetricsInterceptor {Srv : Type}
    (srv : Srv) (ss : ServerStream) (info : StreamServerInfo)
    (handler : StreamHandler Srv) : M (option error) :=
  start <- time_Now ;;
  err <- handler srv ss ;;
  d <- time_Since start ;;
  let duration := Duration_Seconds d in
  let code := status_Code err in
  s <- get ;;
  counter_Add (RequestCounter (metrics s)) 1
              (rpc_attrs (stream_FullMethod info) code) ;;;
  s <- get ;;
  histogram_Record (RequestHistogram (metrics s)) duration
                   (rpc_attrs (stream_FullMethod info) code) ;;;
  ret err.

(* ===================================================================== *)
(** ** Observations on traces and call sequences *)

Definition is_dial (e : event) : bool :=
  match e with EvDial _ _ => true | _ => false end.

Definition is_opened (e : event) : bool :=
  match e with EvDial _ (GoOk _) => true | _ => false end.

(** The calls of [grpc.NewClient] in a trace, and those that made a
    channel. *)
Definition dials (t : list event) : list event := List.filter is_dial t.
Definition channels_opened (t : list event) : nat :=
  length (List.filter is_opened t).

(** The parts of a finished computation. *)
Definition outcome_of {A} (x : outcome A * State * list event) : outcome A :=
  fst (fst x).
Definition state_of {A} (x : outcome A * State * list event) : State :=
  snd (fst x).
Definition trace_of {A} (x : outcome A * State * list event) : list event :=
  snd x.

(** What a call of [initCollector] does to the memoized channel. *)
Definition conn_step {A} (s : State) (x : outcome A * State * list event) : Prop :=
  match grpcConnection s with
  | Some conn =>
      grpcConnection (state_of x) = Some conn /\ dials (trace_of x) = []
      /\ channels_opened (trace_of x) = 0%nat
  | None =>
      (grpcConnection (state_of x) = None /\ channels_opened (trace_of x) = 0%nat)
      \/ (is_Some (grpcConnection (state_of x))
          /\ channels_opened (trace_of x) = 1%nat)
  end.

(** One call of a setup entry point. *)
Inductive setupCall : Type :=
| CallInitCollector
| CallNewTraceProvider (service : string)
| CallNewMeterProvider (service : string).

Definition run_setup (c : setupCall) (W : World) : M unit :=
  match c with
  | CallInitCollector => _ <- initCollector W ;; ret tt
  | CallNewTraceProvider service => _ <- NewTraceProvider W service ;; ret tt
  | CallNewMeterProvider service => _ <- NewMeterProvider W service ;; ret tt
  end.

(** A sequence of setup calls, each in the world of its moment. *)
Fixpoint run_setups (cs : list (setupCall * World)) : M unit :=
  match cs with
  | [] => ret tt
  | (c, W) :: rest => run_setup c W ;;; run_setups rest
  end.

(** The status codes a handler passes to [WriteHeader], in order. *)
Fixpoint written_codes (next : http_Handler) : list Z :=
  match next with
  | [] => []
  | OpWriteHeader code :: rest => code :: written_codes rest
  | _ :: rest => written_codes rest
  end.

(** The status the server's own writer commits for a handler: that of the
    first [WriteHeader], or 200 when a [Write] comes first. *)
Fixpoint first_commit (next : http_Handler) : option Z :=
  match next with
  | [] => None
  | OpWriteHeader code :: _ => Some code
  | OpWrite _ :: _ => Some http_StatusOK
  | OpDo _ :: rest => first_commit rest
  end.

(* ===================================================================== *)
(** ** Sample worlds and handlers *)

(** A world in which every collaborator succeeds; [grpc.NewClient] hands
    out the channel number 7. *)
Definition world_with (env : gmap string string) : World :=
  mkWorld env (fun s => s) (fun _ => GoOk 7%nat) (fun _ => None) (fun _ => None)
          (GoOk [("host.name", attribute_String "node-1")])
          (fun _ => None) (fun _ => None) None None.

Definition env_of (enable endpoint : string) : gmap string string :=
  <["OTEL_ENABLE" := enable]> (<["OTEL_COLLECTOR_ENDPOINT" := endpoint]> ∅).

Definition world_on : World := world_with (env_of "true" "localhost:4317").
Definition world_off : World := world_with (env_of "false" "localhost:4317").
Definition world_upper : World := world_with (env_of "TRUE" "localhost:4317").
Definition world_no_endpoint : World := world_with (env_of "true" "").

(** As [world_on], but the trace exporter cannot be built. *)
Definition world_no_exporter : World :=
  mkWorld (env_of "true" "localhost:4317") (fun s => s) (fun _ => GoOk 7%nat)
          (fun _ => Some (errors_New "exporter unavailable")) (fun _ => None)
          (GoOk []) (fun _ => None) (fun _ => None) None None.

(** As [world_on], but the resource cannot be built. *)
Definition world_no_resource : World :=
  mkWorld (env_of "true" "localhost:4317") (fun s => s) (fun _ => GoOk 7%nat)
          (fun _ => None) (fun _ => None)
          (GoErr (errors_New "host id unavailable"))
          (fun _ => None) (fun _ => None) None None.

(** As [world_on], but the histogram cannot be created. *)
Definition world_no_histogram : World :=
  mkWorld (env_of "true" "localhost:4317") (fun s => s) (fun _ => GoOk 7%nat)
          (fun _ => None) (fun _ => None) (GoOk [])
          (fun _ => None) (fun _ => Some (errors_New "invalid instrument")) None None.

(** As [world_on], but the collector cannot be dialled. *)
Definition world_unreachable : World :=
  mkWorld (env_of "true" "localhost:4317") (fun s => s)
          (fun _ => GoErr (errors_New "no route"))
          (fun _ => None) (fun _ => None)
          (GoOk []) (fun _ => None) (fun _ => None) None None.

Definition sample_counter : Int64Counter :=
  mkCounter "http_requests_total" "Total number of HTTP requests".

Definition sample_histogram : Float64Histogram :=
  mkHistogram "http_request_duration_seconds"
              "HTTP request duration in seconds" bucket_boundaries.

Definition state_with_metrics : State :=
  set_metrics (mkMetrics (Some sample_counter) (Some sample_histogram)) initial_state.

Definition sample_request : Request := mkRequest "GET" "/missing" ctx_Background.
Definition fresh_writer : http_ResponseWriter := mkHttpWriter None "".

Definition handler_404_then_200 : http_Handler :=
  [OpWriteHeader 404; OpWriteHeader 200].

(** A unary handler that takes 1.5 s and fails with [codes.NotFound]. *)
Definition sample_unary : UnaryHandler string string :=
  fun _ _ =>
    modify (fun s => set_clock (clock s + 1500000000) s) ;;;
    ret ("", Some (status_Error 5 "no such user")).

Definition sample_stream : StreamHandler unit :=
  fun _ _ => ret (Some (fmt_Errorf_w "recv: " (status_Error 14 "unavailable"))).

(* ===================================================================== *)
(** ** http.go: the outbound client *)

(** An outgoing [*http.Request]: the request and its header, which
    [HTTPClient] writes through the pointer it is given. *)
Record OutboundRequest : Type := mkOutbound {
  out_Request : Request;
  out_Header : gmap string (list string)
}.

Inductive RoundTripper : Type :=
| http_DefaultTransport
| otelhttp_NewTransport (base : RoundTripper).

(** [http.Client]; the timeout is a [time.Duration], in nanoseconds. *)
Record http_Client : Type := mkClient {
  Timeout : Z;
  Transport : RoundTripper
}.

Record http_Response : Type := mkResponse {
  StatusCode : Z;
  response_Body : string
}.

Definition time_Second : Z := 1000000000.

(** The collaborators of the outbound path: what one propagator's
    [Inject(ctx, carrier)] does to the header, and what [client.Do(req)]
    answers. *)
Record Outside : Type := mkOutside {
  propagator_Inject :
    Propagator -> Ctx -> gmap string (list string) -> gmap string (list string);
  client_Do : http_Client -> OutboundRequest -> goResult http_Response
}.

(** [Inject] of the composite propagator registered in package [otel]:
    every member in order; the default, empty composite does nothing. *)
Fixpoint composite_Inject (O : Outside) (ps : list Propagator) (ctx : Ctx)
                          (h : gmap string (list string))
  : gmap string (list string) :=
  match ps with
  | [] => h
  | p :: rest => composite_Inject O rest ctx (propagator_Inject O p ctx h)
  end.

(** [HTTPClient(ctx, req)]: the client, and the request as the call leaves
    it. *)
Definition HTTPClient (O : Outside) (ctx : Ctx) (req : OutboundRequest)
  : M (OutboundRequest * http_Client) :=
  s <- get ;;
  let injected :=
    composite_Inject O (otel_TextMapPropagator s) ctx (out_Header req) in
  ret (mkOutbound (out_Request req) injected,
       mkClient (20 * time_Second) (otelhttp_NewTransport http_DefaultTransport)).

(** [DoRequest(ctx, req)]: the request as sent, and the answer of
    [client.Do]. *)
Definition DoRequest (O : Outside) (ctx : Ctx) (req : OutboundRequest)
  : M (OutboundRequest * goResult http_Response) :=
  rc <- HTTPClient O ctx req ;;
  let '(req, client) := rc in
  ret (req, client_Do O client req).

(* ===================================================================== *)
(** ** Further observations *)

(** A handler run on the server's own writer, without the middleware. *)
Fixpoint serve_bare (next : http_Handler) (w : http_ResponseWriter)
  : M http_ResponseWriter :=
  match next with
  | [] => ret w
  | OpWriteHeader code :: rest => serve_bare rest (http_WriteHeader code w)
  | OpWrite data :: rest => serve_bare rest (http_Write data w)
  | OpDo work :: rest => work ;;; serve_bare rest w
  end.

(** The handler passes a status to [WriteHeader] at most once, and not
    after a [Write]. *)
Fixpoint single_commit (next : http_Handler) : bool :=
  match next with
  | [] => true
  | OpWriteHeader _ :: rest =>
      match written_codes rest with [] => true | _ => false end
  | OpWrite _ :: rest =>
      match written_codes rest with [] => true | _ => false end
  | OpDo _ :: rest => single_commit rest
  end.

(** The sum of the increments a trace passes to the request counter, and
    the number of its histogram records. *)
Definition added (e : event) : Z :=
  match e with EvAdd _ incr _ => incr | _ => 0 end.

Fixpoint counter_total (t : list event) : Z :=
  match t with
  | [] => 0
  | e :: rest => added e + counter_total rest
  end.

Definition is_record (e : event) : bool :=
  match e with EvRecord _ _ _ => true | _ => false end.

Definition records (t : list event) : nat := length (List.filter is_record t).

(** Work of a handler that returns, leaves the instruments alone and
    records nothing itself. *)
Definition well_behaved (work : M unit) : Prop :=
  forall s : State,
    exists s' t, work s = (Returned tt, s', t)
                 /\ metrics s' = metrics s
                 /\ counter_total t = 0 /\ records t = 0%nat.

Fixpoint well_behaved_handler (next : http_Handler) : Prop :=
  match next with
  | [] => True
  | OpDo work :: rest => well_behaved work /\ well_behaved_handler rest
  | _ :: rest => well_behaved_handler rest
  end.

(** A server handling requests one after the other through the
    middleware. *)
Fixpoint serve_requests
    (rs : list (http_Handler * http_ResponseWriter * Request)) : M unit :=
  match rs with
  | [] => ret tt
  | (next, w, r) :: rest =>
      MetricsMiddleware next w r ;;; serve_requests rest
  end.

(** What relates the package variables in a process that only the setup
    functions have written: providers and instruments exist only over a
    memoized channel, an SDK tracer only with a registered provider, and
    the two instruments only together. *)
Definition setup_invariant (s : State) : Prop :=
  (forall tp name,
      tracer s = Some (SdkTracer tp name) ->
      is_Some (grpcConnection s) /\ is_Some (otel_TracerProvider s))
  /\ (is_Some (RequestCounter (metrics s))
      <-> is_Some (RequestHistogram (metrics s)))
  /\ (is_Some (RequestCounter (metrics s)) ->
      is_Some (grpcConnection s) /\ is_Some (otel_MeterProvider s))
  /\ (is_Some (otel_TracerProvider s) \/ is_Some (otel_MeterProvider s) ->
      is_Some (grpcConnection s)).

(** The spellings of the enablement flag that differ from "true" by case
    only. *)
Definition true_variants : list string :=
  [ "true"; "truE"; "trUe"; "trUE"; "tRue"; "tRuE"; "tRUe"; "tRUE";
    "True"; "TruE"; "TrUe"; "TrUE"; "TRue"; "TRuE"; "TRUe"; "TRUE" ].

Fixpoint has_colon (s : string) : bool :=
  match s with
  | EmptyString => false
  | String c rest => (c =? ":")%char || has_colon rest
  end.

(** Sample: an outside in which each propagator adds its own header key. *)
Definition sample_outside : Outside :=
  mkOutside
    (fun p _ h =>
       match p with
       | Baggage => <["Baggage" := ["user=alice"]]> h
       | TraceContext => <["Traceparent" := ["00-trace-span-01"]]> h
       end)
    (fun _ _ => GoOk (mkResponse 200 "ok")).

Definition sample_outbound : OutboundRequest :=
  mkOutbound (mkRequest "GET" "/users" ctx_Background)
             (<["Accept" := ["application/json"]]> ∅).

Definition handler_write_then_500 : http_Handler :=
  [OpWrite "partial"; OpWriteHeader 500].

Definition handler_tick : http_Handler :=
  [OpDo (modify (fun s => set_clock (clock s + 250000000) s));
   OpWriteHeader 201; OpWrite "created"].

(** The five ways a call of [initCollector] can go. *)
Inductive initCollector_spec (W : World) (s : State)
  : outcome (goResult Conn) * State * list event -> Prop :=
| IC_memoized conn :
    grpcConnection s = Some conn ->
    initCollector_spec W s (Returned (GoOk conn), s, [])
| IC_disabled :
    grpcConnection s = None ->
    strings_ToLower W (os_Getenv W "OTEL_ENABLE") <> "true" ->
    initCollector_spec W s (Returned (GoErr (errors_New msg_disabled)), s, [])
| IC_missing :
    grpcConnection s = None ->
    strings_ToLower W (os_Getenv W "OTEL_ENABLE") = "true" ->
    os_Getenv W "OTEL_COLLECTOR_ENDPOINT" = "" ->
    initCollector_spec W s (Returned (GoErr (errors_New msg_endpoint)), s, [])
| IC_failed cause :
    grpcConnection s = None ->
    strings_ToLower W (os_Getenv W "OTEL_ENABLE") = "true" ->
    os_Getenv W "OTEL_COLLECTOR_ENDPOINT" <> "" ->
    grpc_NewClient W (os_Getenv W "OTEL_COLLECTOR_ENDPOINT") = GoErr cause ->
    initCollector_spec W s
      (Returned (GoErr (fmt_Errorf_w msg_dial cause)), s,
       [EvDial (os_Getenv W "OTEL_COLLECTOR_ENDPOINT") (GoErr cause)])
| IC_opened conn :
    grpcConnection s = None ->
    strings_ToLower W (os_Getenv W "OTEL_ENABLE") = "true" ->
    os_Getenv W "OTEL_COLLECTOR_ENDPOINT" <> "" ->
    grpc_NewClient W (os_Getenv W "OTEL_COLLECTOR_ENDPOINT") = GoOk conn ->
    initCollector_spec W s
      (Returned (GoOk conn), set_grpcConnection (Some conn) s,
       [EvDial (os_Getenv W "OTEL_COLLECTOR_ENDPOINT") (GoOk conn);
        EvPrintln "grpc connection success"]).

Ltac run_monad :=
  unfold bind, ret, get, modify, emit, throw, log_Printf, fmt_Println; simpl.

(* ===================================================================== *)
(** ** The connection manager *)

Lemma initCollector_memoized (W : World) (s : State) (conn : Conn) :
  grpcConnection s = Some conn ->
  initCollector W s = (Returned (GoOk conn), s, []).
Proof.
  intros Hc. unfold initCollector. run_monad. rewrite Hc. reflexivity.
Qed.

Lemma initCollector_disabled (W : World) (s : State) :
  grpcConnection s = None ->
  strings_ToLower W (os_Getenv W "OTEL_ENABLE") <> "true" ->
  initCollector W s = (Returned (GoErr (errors_New msg_disabled)), s, []).
Proof.
  intros Hc Hflag. unfold initCollector. run_monad. rewrite Hc.
  apply String.eqb_neq in Hflag. rewrite Hflag. reflexivity.
Qed.

Lemma initCollector_missing_endpoint (W : World) (s : State) :
  grpcConnection s = None ->
  strings_ToLower W (os_Getenv W "OTEL_ENABLE") = "true" ->
  os_Getenv W "OTEL_COLLECTOR_ENDPOINT" = "" ->
  initCollector W s = (Returned (GoErr (errors_New msg_endpoint)), s, []).
Proof.
  intros Hc Hflag Hep. unfold initCollector. run_monad. rewrite Hc.
  apply String.eqb_eq in Hflag. rewrite Hflag.
  apply String.eqb_eq in Hep. rewrite Hep. reflexivity.
Qed.

Lemma initCollector_dial_failed (W : World) (s : State) (cause : error) :
  grpcConnection s = None ->
  strings_ToLower W (os_Getenv W "OTEL_ENABLE") = "true" ->
  os_Getenv W "OTEL_COLLECTOR_ENDPOINT" <> "" ->
  grpc_NewClient W (os_Getenv W "OTEL_COLLECTOR_ENDPOINT") = GoErr cause ->
  initCollector W s =
    (Returned (GoErr (fmt_Errorf_w msg_dial cause)), s,
     [EvDial (os_Getenv W "OTEL_COLLECTOR_ENDPOINT") (GoErr cause)]).
Proof.
  intros Hc Hflag Hep Hdial. unfold initCollector. run_monad. rewrite Hc.
  apply String.eqb_eq in Hflag. rewrite Hflag.
  apply String.eqb_neq in Hep. rewrite Hep. simpl.
  rewrite Hdial. reflexivity.
Qed.

Lemma initCollector_dial_ok (W : World) (s : State) (conn : Conn) :
  grpcConnection s = None ->
  strings_ToLower W (os_Getenv W "OTEL_ENABLE") = "true" ->
  os_Getenv W "OTEL_COLLECTOR_ENDPOINT" <> "" ->
  grpc_NewClient W (os_Getenv W "OTEL_COLLECTOR_ENDPOINT") = GoOk conn ->
  initCollector W s =
    (Returned (GoOk conn), set_grpcConnection (Some conn) s,
     [EvDial (os_Getenv W "OTEL_COLLECTOR_ENDPOINT") (GoOk conn);
      EvPrintln "grpc connection success"]).
Proof.
  intros Hc Hflag Hep Hdial. unfold initCollector. run_monad. rewrite Hc.
  apply String.eqb_eq in Hflag. rewrite Hflag.
  apply String.eqb_neq in Hep. rewrite Hep. simpl.
  rewrite Hdial. reflexivity.
Qed.

Lemma initCollector_cases (W : World) (s : State) :
  initCollector_spec W s (initCollector W s).
Proof.
  destruct (grpcConnection s) as [conn|] eqn:Hc.
  - rewrite (initCollector_memoized W s conn Hc). now constructor.
  - destruct (String.eqb_spec (strings_ToLower W (os_Getenv W "OTEL_ENABLE")) "true")
      as [Hflag|Hflag].
    + destruct (String.eqb_spec (os_Getenv W "OTEL_COLLECTOR_ENDPOINT") "")
        as [Hep|Hep].
      * rewrite (initCollector_missing_endpoint W s Hc Hflag Hep). now constructor.
      * destruct (grpc_NewClient W (os_Getenv W "OTEL_COLLECTOR_ENDPOINT"))
          as [conn|cause] eqn:Hdial.
        -- rewrite (initCollector_dial_ok W s conn Hc Hflag Hep Hdial).
           now constructor.
        -- rewrite (initCollector_dial_failed W s cause Hc Hflag Hep Hdial).
           now constructor.
    + rewrite (initCollector_disabled W s Hc Hflag). now constructor.
Qed.

(** *** The setup functions, one step after [initCollector] *)

Lemma NewTraceProvider_unfold (W : World) (service : string) (s : State) :
  NewTraceProvider W service s =
  match initCollector W s with
  | (Returned (GoErr err), s1, t1) =>
      (Returned (None, cleanup_empty),
       set_tracer (Some (NoopTracer "noop")) s1,
       t1 ++ [EvLog ("failed to grpc connection: " +:+ Error err +:+ newline)])
  | (Returned (GoOk conn), s1, t1) =>
      match otlptracegrpc_New W conn with
      | Some err =>
          (Returned (None, cleanup_empty), s1,
           t1 ++ [EvLog ("failed to create exporter: " +:+ Error err +:+ newline)])
      | None =>
          match newResource W service with
          | GoErr err =>
              (Returned (None, cleanup_empty), s1,
               t1 ++ [EvLog ("failed to create resource: " +:+ Error err +:+ newline)])
          | GoOk res =>
              let tp := mkTracerProvider AlwaysSample res
                          (BatchSpanProcessor (mkTraceExporter conn)) in
              (Returned (Some tp, cleanup_tracer tp),
               set_tracer (Some (SdkTracer tp service))
                 (set_otel_TextMapPropagator [Baggage; TraceContext]
                    (set_otel_TracerProvider (Some tp) s1)),
               t1)
          end
      end
  | (Panicked p, s1, t1) => (Panicked p, s1, t1)
  end.
Proof.
  unfold NewTraceProvider. unfold bind at 1.
  destruct (initCollector W s) as [[[[conn|err]|p] s1] t1]; auto.
  - destruct (otlptracegrpc_New W conn) as [err|]; [reflexivity|].
    destruct (newResource W service) as [res|err]; [|reflexivity].
    run_monad. now rewrite app_nil_r.
Qed.

Lemma NewMeterProvider_unfold (W : World) (service : string) (s : State) :
  NewMeterProvider W service s =
  match initCollector W s with
  | (Returned (GoErr err), s1, t1) =>
      (Returned cleanup_empty, s1,
       t1 ++ [EvLog ("failed to grpc connection: " +:+ Error err +:+ newline)])
  | (Returned (GoOk conn), s1, t1) =>
      match otlpmetricgrpc_New W conn with
      | Some err =>
          (Returned cleanup_empty, s1,
           t1 ++ [EvLog ("failed to grpc connection: " +:+ Error err +:+ newline)])
      | None =>
          match newResource W service with
          | GoErr err =>
              (Returned cleanup_empty, s1,
               t1 ++ [EvLog ("failed to create resource: " +:+ Error err +:+ newline)])
          | GoOk res =>
              let mp := mkMeterProvider (PeriodicReader (mkMetricExporter conn)) res in
              let s2 := set_otel_MeterProvider (Some mp) s1 in
              match meter_Int64Counter W "http_requests_total" with
              | Some err =>
                  (Returned cleanup_empty, s2,
                   t1 ++ [EvLog ("failed to create counter: " +:+ Error err +:+ newline)])
              | None =>
                  match meter_Float64Histogram W "http_request_duration_seconds" with
                  | Some err =>
                      (Returned cleanup_empty, s2,
                       t1 ++ [EvLog ("failed to create histogram: "
                                     +:+ Error err +:+ newline)])
                  | None =>
                      (Returned (cleanup_meter mp),
                       set_metrics (mkMetrics (Some sample_counter)
                                              (Some sample_histogram)) s2,
                       t1)
                  end
              end
          end
      end
  | (Panicked p, s1, t1) => (Panicked p, s1, t1)
  end.
Proof.
  unfold NewMeterProvider. unfold bind at 1.
  destruct (initCollector W s) as [[[[conn|err]|p] s1] t1]; auto.
  - destruct (otlpmetricgrpc_New W conn) as [err|]; [reflexivity|].
    destruct (newResource W service) as [res|err]; [|reflexivity].
    destruct (meter_Int64Counter W "http_requests_total") as [err|];
      [reflexivity|].
    destruct (meter_Float64Histogram W "http_request_duration_seconds") as [err|];
      [reflexivity|].
    run_monad. now rewrite app_nil_r.
Qed.

(** *** Counting the channels a trace opens *)

Lemma channels_opened_app (t1 t2 : list event) :
  channels_opened (t1 ++ t2) = (channels_opened t1 + channels_opened t2)%nat.
Proof.
  unfold channels_opened. now rewrite List.filter_app, List.length_app.
Qed.

Lemma dials_app (t1 t2 : list event) : dials (t1 ++ t2) = dials t1 ++ dials t2.
Proof. unfold dials. apply List.filter_app. Qed.

Lemma initCollector_conn_step (W : World) (s : State) :
  conn_step s (initCollector W s).
Proof.
  unfold conn_step.
  destruct (initCollector_cases W s) as [conn Hc|Hc ?|Hc ? ?|cause Hc ? ? ?|conn Hc ? ? ?];
    rewrite Hc; simpl; auto.
Qed.

(** Whatever a setup function does after [initCollector] leaves the
    memoized channel alone and dials nothing. *)
Lemma conn_step_extend {A B} (s : State)
      (x : outcome A * State * list event) (y : outcome B * State * list event) :
  conn_step s x ->
  grpcConnection (state_of y) = grpcConnection (state_of x) ->
  (exists t2, trace_of y = trace_of x ++ t2 /\ dials t2 = []
              /\ channels_opened t2 = 0%nat) ->
  conn_step s y.
Proof.
  unfold conn_step. intros Hx Hs (t2 & Ht & Hd & Hn).
  rewrite Hs, Ht, dials_app, channels_opened_app, Hd, Hn, app_nil_r, Nat.add_0_r.
  exact Hx.
Qed.

Lemma NewTraceProvider_conn_step (W : World) (service : string) (s : State) :
  conn_step s (NewTraceProvider W service s).
Proof.
  rewrite NewTraceProvider_unfold.
  pose proof (initCollector_conn_step W s) as Hstep.
  destruct (initCollector W s) as [[[[conn|err]|p] s1] t1]; [| |exact Hstep].
  - destruct (otlptracegrpc_New W conn) as [err|];
      [|destruct (newResource W service) as [res|err]];
      (eapply conn_step_extend; [exact Hstep|reflexivity|]);
      unfold trace_of; simpl; eauto.
    all: exists []; now rewrite app_nil_r.
  - eapply conn_step_extend; [exact Hstep|reflexivity|].
    unfold trace_of; simpl; eauto.
Qed.

Lemma NewMeterProvider_conn_step (W : World) (service : string) (s : State) :
  conn_step s (NewMeterProvider W service s).
Proof.
  rewrite NewMeterProvider_unfold.
  pose proof (initCollector_conn_step W s) as Hstep.
  destruct (initCollector W s) as [[[[conn|err]|p] s1] t1]; [| |exact Hstep].
  - destruct (otlpmetricgrpc_New W conn) as [err|];
      [|destruct (newResource W service) as [res|err];
        [destruct (meter_Int64Counter W "http_requests_total") as [err|];
         [|destruct (meter_Float64Histogram W "http_request_duration_seconds")
             as [err|]]|]];
      (eapply conn_step_extend; [exact Hstep|reflexivity|]);
      unfold trace_of; simpl; eauto.
    all: exists []; now rewrite app_nil_r.
  - eapply conn_step_extend; [exact Hstep|reflexivity|].
    unfold trace_of; simpl; eauto.
Qed.

Lemma conn_step_ret {A} (a : A) (s : State) : conn_step s (ret a s).
Proof.
  unfold conn_step, ret, state_of, trace_of; simpl.
  destruct (grpcConnection s); auto.
Qed.

Lemma conn_step_bind {A B} (m : M A) (k : A -> M B) (s : State) :
  conn_step s (m s) ->
  (forall a s1, conn_step s1 (k a s1)) ->
  conn_step s (bind m k s).
Proof.
  intros Hm Hk. unfold bind.
  destruct (m s) as [[[a|p] s1] t1] eqn:Em; [|exact Hm].
  specialize (Hk a s1). destruct (k a s1) as [[r s2] t2] eqn:Ek.
  unfold conn_step, state_of, trace_of in *; simpl in *.
  rewrite dials_app, channels_opened_app.
  destruct (grpcConnection s) as [c|].
  - destruct Hm as (H1 & H2 & H3). rewrite H1 in Hk.
    destruct Hk as (K1 & K2 & K3). rewrite H2, H3, K2, K3. auto.
  - destruct Hm as [(H1 & H2)|((c & H1) & H2)]; rewrite H1 in Hk.
    + destruct Hk as [(K1 & K2)|(K1 & K2)]; rewrite H2, K2; auto.
    + destruct Hk as (K1 & K2 & K3). rewrite H2, K3, K1. right. split; eauto.
Qed.

Lemma run_setup_conn_step (c : setupCall) (W : World) (s : State) :
  conn_step s (run_setup c W s).
Proof.
  destruct c; simpl; apply conn_step_bind;
    auto using initCollector_conn_step, NewTraceProvider_conn_step,
               NewMeterProvider_conn_step; intros; apply conn_step_ret.
Qed.

Lemma run_setups_conn_step (cs : list (setupCall * World)) (s : State) :
  conn_step s (run_setups cs s).
Proof.
  revert s. induction cs as [|[c W] rest IH]; intros s; simpl.
  - apply conn_step_ret.
  - apply conn_step_bind; [apply run_setup_conn_step|intros _ s1; apply IH].
Qed.

(** C5. [initCollector] is idempotent: in every state that holds a memoized
    channel it returns that very handle with a nil error, dials nothing and
    leaves the state as it was; and whatever sequence of setup calls
    ([initCollector], [NewTraceProvider], [NewMeterProvider]) a process
    makes, in whatever worlds, at most one channel is ever opened, none at
    all once a channel is memoized. *)
Theorem C5_initCollector_idempotent :
  (forall (W : World) (s : State) (conn : Conn),
      grpcConnection s = Some conn ->
      initCollector W s = (Returned (GoOk conn), s, []))
  /\ (forall (cs : list (setupCall * World)) (s : State),
         (channels_opened (trace_of (run_setups cs s)) <= 1)%nat)
  /\ (forall (cs : list (setupCall * World)) (s : State) (conn : Conn),
         grpcConnection s = Some conn ->
         dials (trace_of (run_setups cs s)) = []
         /\ grpcConnection (state_of (run_setups cs s)) = Some conn).
Proof.
  split; [exact initCollector_memoized|split].
  - intros cs s. pose proof (run_setups_conn_step cs s) as H.
    unfold conn_step in H. destruct (grpcConnection s).
    + destruct H as (_ & _ & H). lia.
    + destruct H as [(_ & H)|(_ & H)]; lia.
  - intros cs s conn Hc. pose proof (run_setups_conn_step cs s) as H.
    unfold conn_step in H. rewrite Hc in H. tauto.
Qed.

Lemma C5_witness :
  initCollector world_off (set_grpcConnection (Some 3%nat) initial_state)
  = (Returned (GoOk 3%nat), set_grpcConnection (Some 3%nat) initial_state, [])
  /\ (channels_opened
        (trace_of (run_setups [(CallNewTraceProvider "svc", world_on);
                               (CallNewMeterProvider "svc", world_on);
                               (CallInitCollector, world_on)] initial_state))
      <= 1)%nat.
Proof.
  split.
  - apply (proj1 C5_initCollector_idempotent). reflexivity.
  - apply (proj1 (proj2 C5_initCollector_idempotent)).
Defined.

(** C6. With no channel memoized and a flag that passes the enablement
    check, [initCollector] fails with the missing-endpoint error exactly
    when the endpoint is empty; otherwise it dials the endpoint, and either
    fails with the connection error wrapping the dial's cause, leaving the
    state alone and no channel memoized, or memoizes the new channel and
    returns it: the package variable then holds that channel, and a second
    call, in whatever world, returns it again without dialling. *)
Theorem C6_initCollector_endpoint (W : World) (s : State) :
  grpcConnection s = None ->
  strings_ToLower W (os_Getenv W "OTEL_ENABLE") = "true" ->
  let endpoint := os_Getenv W "OTEL_COLLECTOR_ENDPOINT" in
  (outcome_of (initCollector W s) = Returned (GoErr (errors_New msg_endpoint))
   <-> endpoint = "")
  /\ (endpoint = "" -> dials (trace_of (initCollector W s)) = []
                       /\ state_of (initCollector W s) = s)
  /\ (endpoint <> "" ->
      match grpc_NewClient W endpoint with
      | GoErr cause =>
          initCollector W s =
            (Returned (GoErr (fmt_Errorf_w msg_dial cause)), s,
             [EvDial endpoint (GoErr cause)])
          /\ grpcConnection (state_of (initCollector W s)) = None
      | GoOk conn =>
          initCollector W s =
            (Returned (GoOk conn), set_grpcConnection (Some conn) s,
             [EvDial endpoint (GoOk conn); EvPrintln "grpc connection success"])
          /\ grpcConnection (state_of (initCollector W s)) = Some conn
          /\ (forall W' : World,
                 initCollector W' (state_of (initCollector W s))
                 = (Returned (GoOk conn), state_of (initCollector W s), []))
      end).
Proof.
  intros Hc Hflag endpoint. subst endpoint.
  destruct (initCollector_cases W s) as [conn Hc'|? Hf|? ? Hep|cause ? ? Hep Hd|conn ? ? Hep Hd];
    try congruence; unfold outcome_of, trace_of, state_of; simpl.
  - rewrite Hep. repeat split; auto; congruence.
  - rewrite Hd. repeat split; try congruence; try discriminate.
  - rewrite Hd. split; [split; [discriminate|congruence]|].
    split; [congruence|]. intros _. split; [reflexivity|].
    split; [reflexivity|].
    intros W'. apply initCollector_memoized. reflexivity.
Qed.

Lemma C6_witness :
  outcome_of (initCollector world_no_endpoint initial_state)
  = Returned (GoErr (errors_New msg_endpoint))
  /\ (initCollector world_unreachable initial_state
      = (Returned (GoErr (fmt_Errorf_w msg_dial (errors_New "no route"))),
         initial_state, [EvDial "localhost:4317" (GoErr (errors_New "no route"))])
      /\ grpcConnection (state_of (initCollector world_unreachable initial_state))
         = None)
  /\ (initCollector world_on initial_state
      = (Returned (GoOk 7%nat), set_grpcConnection (Some 7%nat) initial_state,
         [EvDial "localhost:4317" (GoOk 7%nat); EvPrintln "grpc connection success"])
      /\ grpcConnection (state_of (initCollector world_on initial_state))
         = Some 7%nat
      /\ initCollector world_off (state_of (initCollector world_on initial_state))
         = (Returned (GoOk 7%nat), state_of (initCollector world_on initial_state),
            [])).
Proof.
  split; [|split].
  - pose proof (C6_initCollector_endpoint world_no_endpoint initial_state
                  eq_refl eq_refl) as (H & _ & _).
    apply H. reflexivity.
  - pose proof (C6_initCollector_endpoint world_unreachable initial_state
                  eq_refl eq_refl) as (_ & _ & H).
    apply H. vm_compute. discriminate.
  - pose proof (C6_initCollector_endpoint world_on initial_state
                  eq_refl eq_refl) as (_ & _ & H).
    assert (Hep : os_Getenv world_on "OTEL_COLLECTOR_ENDPOINT" <> "")
      by (vm_compute; discriminate).
    destruct (H Hep) as (H1 & H2 & H3).
    split; [exact H1|split; [exact H2|exact (H3 world_off)]].
Defined.

(* ===================================================================== *)
(** ** The enablement flag *)

Lemma lower_ascii_true : lower_ascii "TRUE" = "true".
Proof. reflexivity. Qed.

(** C1, as the spec words it, fails: the flag is lower-cased before it is
    compared, so the value "TRUE", which is not the string "true", still
    makes [initCollector] dial the collector, and [NewTraceProvider]
    installs an SDK tracer rather than a no-op one. *)
Lemma C1_counterexample :
  os_Getenv world_upper "OTEL_ENABLE" <> "true"
  /\ grpcConnection initial_state = None
  /\ trace_of (initCollector world_upper initial_state)
     = [EvDial "localhost:4317" (GoOk 7%nat); EvPrintln "grpc connection success"]
  /\ dials (trace_of (NewTraceProvider world_upper "svc" initial_state))
     = [EvDial "localhost:4317" (GoOk 7%nat)]
  /\ dials (trace_of (NewMeterProvider world_upper "svc" initial_state))
     = [EvDial "localhost:4317" (GoOk 7%nat)]
  /\ tracer (state_of (NewTraceProvider world_upper "svc" initial_state))
     <> Some (NoopTracer "noop").
Proof.
  repeat split; try reflexivity; vm_compute; discriminate.
Qed.

(** C1, amended.  For every value of OTEL_ENABLE whose lower-cased form
    ([strings.ToLower]) is not "true", and with no channel memoized:
    [initCollector] fails with the disabled error and dials nothing;
    [NewTraceProvider] installs the no-op tracer as the package tracer and
    returns a nil provider with the empty cleanup; [NewMeterProvider]
    returns the empty cleanup and leaves the instruments as they were.
    Neither attempts a connection. *)
Theorem C1_disabled_flag_is_noop (W : World) (service : string) (s : State) :
  grpcConnection s = None ->
  strings_ToLower W (os_Getenv W "OTEL_ENABLE") <> "true" ->
  initCollector W s = (Returned (GoErr (errors_New msg_disabled)), s, [])
  /\ NewTraceProvider W service s
     = (Returned (None, cleanup_empty), set_tracer (Some (NoopTracer "noop")) s,
        [EvLog ("failed to grpc connection: " +:+ msg_disabled +:+ newline)])
  /\ dials (trace_of (NewTraceProvider W service s)) = []
  /\ NewMeterProvider W service s
     = (Returned cleanup_empty, s,
        [EvLog ("failed to grpc connection: " +:+ msg_disabled +:+ newline)])
  /\ dials (trace_of (NewMeterProvider W service s)) = [].
Proof.
  intros Hc Hflag.
  pose proof (initCollector_disabled W s Hc Hflag) as Hinit.
  rewrite NewTraceProvider_unfold, NewMeterProvider_unfold, Hinit.
  repeat split.
Qed.

Lemma C1_witness :
  initCollector world_off initial_state
  = (Returned (GoErr (errors_New msg_disabled)), initial_state, [])
  /\ tracer (state_of (NewTraceProvider world_off "svc" initial_state))
     = Some (NoopTracer "noop").
Proof.
  assert (Hflag : strings_ToLower world_off (os_Getenv world_off "OTEL_ENABLE")
                  <> "true") by (vm_compute; discriminate).
  destruct (C1_disabled_flag_is_noop world_off "svc" initial_state eq_refl Hflag)
    as (H1 & H2 & _).
  split; [exact H1|]. rewrite H2. reflexivity.
Defined.

(** The exact string "true" does pass the check, as do its other case
    variants; "false", "1" and the unset variable do not. *)
Lemma flag_examples :
  forall W : World,
    strings_ToLower W "true" = "true" /\ strings_ToLower W "True" = "true"
    /\ strings_ToLower W "tRuE" = "true"
    /\ strings_ToLower W "false" <> "true" /\ strings_ToLower W "1" <> "true"
    /\ strings_ToLower W "" <> "true".
Proof. intros W. repeat split; vm_compute; discriminate. Qed.

(* ===================================================================== *)
(** ** [IsEnabled] *)

Lemma IsEnabled_spec (W : World) :
  IsEnabled W = true
  <-> environ W !! "OTEL_ENABLE" = Some "true"
      /\ is_Some (environ W !! "OTEL_COLLECTOR_ENDPOINT").
Proof.
  unfold IsEnabled, os_Getenv, os_LookupEnv.
  rewrite andb_true_iff, String.eqb_eq, bool_decide_eq_true.
  split; intros [H1 H2]; split; auto.
  - destruct (environ W !! "OTEL_ENABLE") as [v|]; simpl in H1;
      [now subst|discriminate].
  - now rewrite H1.
Qed.

(** C10. [IsEnabled] is true exactly when OTEL_ENABLE is the string "true"
    and OTEL_COLLECTOR_ENDPOINT is present in the environment, an empty
    value included.  So it can be true where [initCollector] fails with
    the missing-endpoint error (endpoint set to ""), and false where
    [initCollector] goes on to dial (OTEL_ENABLE = "TRUE"). *)
Theorem C10_IsEnabled_vs_initCollector :
  (forall W : World,
      IsEnabled W = true
      <-> environ W !! "OTEL_ENABLE" = Some "true"
          /\ is_Some (environ W !! "OTEL_COLLECTOR_ENDPOINT"))
  /\ (environ world_no_endpoint !! "OTEL_COLLECTOR_ENDPOINT" = Some ""
      /\ IsEnabled world_no_endpoint = true
      /\ initCollector world_no_endpoint initial_state
         = (Returned (GoErr (errors_New msg_endpoint)), initial_state, []))
  /\ (IsEnabled world_upper = false
      /\ initCollector world_upper initial_state
         = (Returned (GoOk 7%nat), set_grpcConnection (Some 7%nat) initial_state,
            [EvDial "localhost:4317" (GoOk 7%nat);
             EvPrintln "grpc connection success"])).
Proof.
  split; [exact IsEnabled_spec|].
  repeat split; vm_compute; reflexivity.
Qed.

(* ===================================================================== *)
(** ** Provider setup *)

Lemma initCollector_keeps_globals (W : World) (s : State) :
  tracer (state_of (initCollector W s)) = tracer s
  /\ metrics (state_of (initCollector W s)) = metrics s.
Proof.
  destruct (initCollector_cases W s); split; reflexivity.
Qed.

(** C3, as the spec words it, fails: when the exporter (or the resource)
    cannot be built, [NewTraceProvider] returns the nil provider and the
    empty cleanup, but it installs no tracer at all: the package tracer
    stays nil. *)
Lemma C3_counterexample :
  outcome_of (NewTraceProvider world_no_exporter "svc" initial_state)
  = Returned (None, cleanup_empty)
  /\ tracer (state_of (NewTraceProvider world_no_exporter "svc" initial_state))
     = None
  /\ outcome_of (NewTraceProvider world_no_resource "svc" initial_state)
     = Returned (None, cleanup_empty)
  /\ tracer (state_of (NewTraceProvider world_no_resource "svc" initial_state))
     = None
  /\ tracer (state_of (NewTraceProvider world_unreachable "svc" initial_state))
     = Some (NoopTracer "noop").
Proof. repeat split. Qed.

(** C3, amended.  In [NewTraceProvider], a failure to acquire the channel
    installs the no-op tracer as the package tracer and returns a nil
    provider with the empty cleanup.  A failure at the exporter-build step
    or at the resource-build step also returns a nil provider with the
    empty cleanup, after one log line, but leaves the package tracer as it
    was before the call: no no-op tracer is installed there. *)
Theorem C3_trace_setup_failures (W : World) (service : string) (s : State) :
  (forall err s1 t1,
      initCollector W s = (Returned (GoErr err), s1, t1) ->
      NewTraceProvider W service s
      = (Returned (None, cleanup_empty),
         set_tracer (Some (NoopTracer "noop")) s1,
         t1 ++ [EvLog ("failed to grpc connection: " +:+ Error err +:+ newline)]))
  /\ (forall conn s1 t1,
         initCollector W s = (Returned (GoOk conn), s1, t1) ->
         (is_Some (otlptracegrpc_New W conn)
          \/ (exists err, newResource W service = GoErr err)) ->
         exists line,
           NewTraceProvider W service s
           = (Returned (None, cleanup_empty), s1, t1 ++ [EvLog line])
           /\ tracer s1 = tracer s).
Proof.
  split.
  - intros err s1 t1 Hinit. now rewrite NewTraceProvider_unfold, Hinit.
  - intros conn s1 t1 Hinit Hfail.
    pose proof (proj1 (initCollector_keeps_globals W s)) as Htr.
    rewrite NewTraceProvider_unfold, Hinit. rewrite Hinit in Htr.
    destruct (otlptracegrpc_New W conn) as [err|] eqn:Hexp.
    + eexists. split; [reflexivity|exact Htr].
    + destruct Hfail as [[? Hf]|[err Hres]]; [discriminate|].
      rewrite Hres. eexists. split; [reflexivity|exact Htr].
Qed.

Lemma C3_witness :
  exists line,
    NewTraceProvider world_no_exporter "svc" initial_state
    = (Returned (None, cleanup_empty),
       set_grpcConnection (Some 7%nat) initial_state,
       [EvDial "localhost:4317" (GoOk 7%nat); EvPrintln "grpc connection success"]
       ++ [EvLog line])
    /\ tracer (set_grpcConnection (Some 7%nat) initial_state)
       = tracer initial_state.
Proof.
  apply (proj2 (C3_trace_setup_failures world_no_exporter "svc" initial_state)
           7%nat).
  - reflexivity.
  - left. eexists. reflexivity.
Defined.

(** C9. A call of [NewMeterProvider] that completes (it returns the meter
    provider's shutdown) fills the two fields of [metrics], and nothing
    else: an int64 counter named http_requests_total and a float64
    histogram named http_request_duration_seconds whose explicit bucket
    boundaries are 0.1, 0.2, ..., 0.9, 1.0, 2.0, 5.0; both fields are then
    non-nil.  With every collaborator answering, the call does complete. *)
Theorem C9_meter_setup_instruments :
  (forall (W : World) (service : string) (s s' : State) (mp : MeterProvider)
          (t : list event),
      NewMeterProvider W service s = (Returned (cleanup_meter mp), s', t) ->
      metrics s'
      = mkMetrics
          (Some (mkCounter "http_requests_total" "Total number of HTTP requests"))
          (Some (mkHistogram "http_request_duration_seconds"
                             "HTTP request duration in seconds"
                             [ 1#10; 2#10; 3#10; 4#10; 5#10; 6#10;
                               7#10; 8#10; 9#10; 1#1; 2#1; 5#1 ]%Q))
      /\ is_Some (RequestCounter (metrics s'))
      /\ is_Some (RequestHistogram (metrics s')))
  /\ (exists mp, outcome_of (NewMeterProvider world_on "svc" initial_state)
                 = Returned (cleanup_meter mp)).
Proof.
  split.
  - intros W service s s' mp t H. rewrite NewMeterProvider_unfold in H.
    destruct (initCollector W s) as [[[[conn|err]|p] s1] t1]; try discriminate.
    destruct (otlpmetricgrpc_New W conn); try discriminate.
    destruct (newResource W service); try discriminate.
    destruct (meter_Int64Counter W "http_requests_total"); try discriminate.
    destruct (meter_Float64Histogram W "http_request_duration_seconds");
      try discriminate.
    injection H as _ Hs _. subst s'. simpl. repeat split; eexists; reflexivity.
  - eexists. reflexivity.
Qed.

Lemma C9_witness :
  metrics (state_of (NewMeterProvider world_on "svc" initial_state))
  = mkMetrics (Some sample_counter) (Some sample_histogram).
Proof.
  refine (proj1 (proj1 C9_meter_setup_instruments world_on "svc" initial_state
                   _ _ _ _)).
  reflexivity.
Defined.

(* ===================================================================== *)
(** ** The recording step of the wrappers *)

Ltac run_recording s1 :=
  unfold counter_Add, histogram_Record; run_monad;
  destruct (RequestCounter (metrics s1)) as [c|]; simpl;
  [destruct (RequestHistogram (metrics s1)) as [h|]; simpl|];
  rewrite ?app_nil_r, <- ?app_assoc; reflexivity.

Lemma MetricsMiddleware_unfold (next : http_Handler) (w : http_ResponseWriter)
      (r : Request) (s : State) :
  MetricsMiddleware next w r s =
  match ServeHTTP next (NewResponseWriter w) s with
  | (Returned rw, s1, t1) =>
      let attrs := http_attrs r (Status rw) in
      match RequestCounter (metrics s1), RequestHistogram (metrics s1) with
      | None, _ => (Panicked NilCounterAdd, s1, t1)
      | Some c, None => (Panicked NilHistogramRecord, s1, t1 ++ [EvAdd c 1 attrs])
      | Some c, Some h =>
          (Returned (ResponseWriter rw), s1,
           t1 ++ [EvAdd c 1 attrs;
                  EvRecord h (Duration_Seconds (clock s1 - clock s)) attrs])
      end
  | (Panicked p, s1, t1) => (Panicked p, s1, t1)
  end.
Proof.
  unfold MetricsMiddleware, time_Now, time_Since. run_monad.
  destruct (ServeHTTP next (NewResponseWriter w) s) as [[[rw|p] s1] t1];
    [|reflexivity].
  run_recording s1.
Qed.

Lemma UnaryServerMetricsInterceptor_unfold {Req Resp : Type}
      (ctx : Ctx) (req : Req) (info : UnaryServerInfo)
      (handler : UnaryHandler Req Resp) (s : State) :
  UnaryServerMetricsInterceptor ctx req info handler s =
  match handler ctx req s with
  | (Returned (resp, err), s1, t1) =>
      let attrs := rpc_attrs (FullMethod info) (status_Code err) in
      match RequestCounter (metrics s1), RequestHistogram (metrics s1) with
      | None, _ => (Panicked NilCounterAdd, s1, t1)
      | Some c, None => (Panicked NilHistogramRecord, s1, t1 ++ [EvAdd c 1 attrs])
      | Some c, Some h =>
          (Returned (resp, err), s1,
           t1 ++ [EvAdd c 1 attrs;
                  EvRecord h (Duration_Seconds (clock s1 - clock s)) attrs])
      end
  | (Panicked p, s1, t1) => (Panicked p, s1, t1)
  end.
Proof.
  unfold UnaryServerMetricsInterceptor, time_Now, time_Since. run_monad.
  destruct (handler ctx req s) as [[[[resp err]|p] s1] t1]; [|reflexivity].
  run_recording s1.
Qed.

Lemma StreamServerMetricsInterceptor_unfold {Srv : Type}
      (srv : Srv) (ss : ServerStream) (info : StreamServerInfo)
      (handler : StreamHandler Srv) (s : State) :
  StreamServerMetricsInterceptor srv ss info handler s =
  match handler srv ss s with
  | (Returned err, s1, t1) =>
      let attrs := rpc_attrs (stream_FullMethod info) (status_Code err) in
      match RequestCounter (metrics s1), RequestHistogram (metrics s1) with
      | None, _ => (Panicked NilCounterAdd, s1, t1)
      | Some c, None => (Panicked NilHistogramRecord, s1, t1 ++ [EvAdd c 1 attrs])
      | Some c, Some h =>
          (Returned err, s1,
           t1 ++ [EvAdd c 1 attrs;
                  EvRecord h (Duration_Seconds (clock s1 - clock s)) attrs])
      end
  | (Panicked p, s1, t1) => (Panicked p, s1, t1)
  end.
Proof.
  unfold StreamServerMetricsInterceptor, time_Now, time_Since. run_monad.
  destruct (handler srv ss s) as [[[err|p] s1] t1]; [|reflexivity].
  run_recording s1.
Qed.

(** C4. The instrument pair is nil when the process starts, a call of
    [NewMeterProvider] that does not complete leaves it as it was, and the
    other setup functions never write it.  In that state nothing guards
    the recording step: whenever the wrapped handler returns, each of
    [MetricsMiddleware], [UnaryServerMetricsInterceptor] and
    [StreamServerMetricsInterceptor] calls [Add] on the nil counter, which
    is a nil dereference.  The [Record] call that follows is no more
    guarded: were only the histogram nil, the wrapper would call [Record]
    on it. *)
Theorem C4_recording_is_unguarded :
  metrics initial_state = mkMetrics None None
  /\ (forall (W : World) (service : string) (s : State),
         outcome_of (NewMeterProvider W service s) = Returned cleanup_empty ->
         metrics (state_of (NewMeterProvider W service s)) = metrics s)
  /\ (forall (W : World) (service : string) (s : State),
         metrics (state_of (initCollector W s)) = metrics s
         /\ metrics (state_of (NewTraceProvider W service s)) = metrics s)
  /\ (forall (next : http_Handler) (w : http_ResponseWriter) (r : Request)
             (s s1 : State) (rw : responseWriter) (t1 : list event),
         ServeHTTP next (NewResponseWriter w) s = (Returned rw, s1, t1) ->
         (RequestCounter (metrics s1) = None ->
          MetricsMiddleware next w r s = (Panicked NilCounterAdd, s1, t1))
         /\ (forall c, RequestCounter (metrics s1) = Some c ->
                       RequestHistogram (metrics s1) = None ->
                       MetricsMiddleware next w r s
                       = (Panicked NilHistogramRecord, s1,
                          t1 ++ [EvAdd c 1 (http_attrs r (Status rw))])))
  /\ (forall (Req Resp : Type) (ctx : Ctx) (req : Req) (info : UnaryServerInfo)
             (handler : UnaryHandler Req Resp) (s s1 : State)
             (resp : Resp) (err : option error) (t1 : list event),
         handler ctx req s = (Returned (resp, err), s1, t1) ->
         (RequestCounter (metrics s1) = None ->
          UnaryServerMetricsInterceptor ctx req info handler s
          = (Panicked NilCounterAdd, s1, t1))
         /\ (forall c, RequestCounter (metrics s1) = Some c ->
                       RequestHistogram (metrics s1) = None ->
                       UnaryServerMetricsInterceptor ctx req info handler s
                       = (Panicked NilHistogramRecord, s1,
                          t1 ++ [EvAdd c 1 (rpc_attrs (FullMethod info)
                                                      (status_Code err))])))
  /\ (forall (Srv : Type) (srv : Srv) (ss : ServerStream) (info : StreamServerInfo)
             (handler : StreamHandler Srv) (s s1 : State)
             (err : option error) (t1 : list event),
         handler srv ss s = (Returned err, s1, t1) ->
         (RequestCounter (metrics s1) = None ->
          StreamServerMetricsInterceptor srv ss info handler s
          = (Panicked NilCounterAdd, s1, t1))
         /\ (forall c, RequestCounter (metrics s1) = Some c ->
                       RequestHistogram (metrics s1) = None ->
                       StreamServerMetricsInterceptor srv ss info handler s
                       = (Panicked NilHistogramRecord, s1,
                          t1 ++ [EvAdd c 1 (rpc_attrs (stream_FullMethod info)
                                                      (status_Code err))]))).
Proof.
  split; [reflexivity|]. split; [|split; [|split; [|split]]].
  - intros W service s. rewrite NewMeterProvider_unfold.
    pose proof (proj2 (initCollector_keeps_globals W s)) as Hm.
    destruct (initCollector W s) as [[[[conn|err]|p] s1] t1];
      unfold outcome_of, state_of in *; simpl in *; auto.
    destruct (otlpmetricgrpc_New W conn); auto.
    destruct (newResource W service); auto.
    destruct (meter_Int64Counter W "http_requests_total"); auto.
    destruct (meter_Float64Histogram W "http_request_duration_seconds"); auto.
    discriminate.
  - intros W service s.
    pose proof (proj2 (initCollector_keeps_globals W s)) as Hm.
    split; [exact Hm|]. rewrite NewTraceProvider_unfold.
    destruct (initCollector W s) as [[[[conn|err]|p] s1] t1];
      unfold state_of in *; simpl in *; auto.
    destruct (otlptracegrpc_New W conn); auto.
    destruct (newResource W service); auto.
  - intros next w r s s1 rw t1 Hh. rewrite MetricsMiddleware_unfold, Hh.
    split; [intros ->; reflexivity|intros c -> ->; reflexivity].
  - intros Req Resp ctx req info handler s s1 resp err t1 Hh.
    rewrite UnaryServerMetricsInterceptor_unfold, Hh.
    split; [intros ->; reflexivity|intros c -> ->; reflexivity].
  - intros Srv srv ss info handler s s1 err t1 Hh.
    rewrite StreamServerMetricsInterceptor_unfold, Hh.
    split; [intros ->; reflexivity|intros c -> ->; reflexivity].
Qed.

Lemma C4_witness :
  metrics (state_of (NewMeterProvider world_no_histogram "svc" initial_state))
  = metrics initial_state
  /\ MetricsMiddleware [OpWriteHeader 200] fresh_writer sample_request initial_state
     = (Panicked NilCounterAdd, initial_state, [])
  /\ UnaryServerMetricsInterceptor ctx_Background "ping" (mkUnaryInfo "/pkg.S/Ping")
       (fun _ _ => ret ("pong", None)) initial_state
     = (Panicked NilCounterAdd, initial_state, [])
  /\ StreamServerMetricsInterceptor tt (mkServerStream ctx_Background)
       (mkStreamInfo "/pkg.S/Watch") sample_stream initial_state
     = (Panicked NilCounterAdd, initial_state, []).
Proof.
  destruct C4_recording_is_unguarded as (_ & Hfail & _ & Hhttp & Hunary & Hstream).
  split; [|split; [|split]].
  - apply Hfail. reflexivity.
  - refine (proj1 (Hhttp [OpWriteHeader 200] fresh_writer sample_request
                     initial_state initial_state _ [] eq_refl) eq_refl).
  - refine (proj1 (Hunary string string ctx_Background "ping"
                     (mkUnaryInfo "/pkg.S/Ping") (fun _ _ => ret ("pong", None))
                     initial_state initial_state "pong" None [] eq_refl) eq_refl).
  - refine (proj1 (Hstream unit tt (mkServerStream ctx_Background)
                     (mkStreamInfo "/pkg.S/Watch") sample_stream
                     initial_state initial_state _ [] eq_refl) eq_refl).
Defined.

(** C8. With the instruments set up, an invocation of either RPC
    interceptor whose handler returns error [err] records exactly one
    [Add] of 1 and one [Record], both tagged with the full method name and
    with status_code equal to [status.Code(err)]: [codes.OK] for a nil
    error, the carried code for a status error.  The handler's own result
    is passed on unchanged. *)
Theorem C8_rpc_status_code :
  (forall (Req Resp : Type) (ctx : Ctx) (req : Req) (info : UnaryServerInfo)
          (handler : UnaryHandler Req Resp) (s s1 : State)
          (resp : Resp) (err : option error) (t1 : list event)
          (c : Int64Counter) (h : Float64Histogram),
      handler ctx req s = (Returned (resp, err), s1, t1) ->
      metrics s1 = mkMetrics (Some c) (Some h) ->
      UnaryServerMetricsInterceptor ctx req info handler s
      = (Returned (resp, err), s1,
         t1 ++ [EvAdd c 1 [("method", attribute_String (FullMethod info));
                           ("status_code", attribute_Int (status_Code err))];
                EvRecord h (Duration_Seconds (clock s1 - clock s))
                         [("method", attribute_String (FullMethod info));
                          ("status_code", attribute_Int (status_Code err))]]))
  /\ (forall (Srv : Type) (srv : Srv) (ss : ServerStream) (info : StreamServerInfo)
             (handler : StreamHandler Srv) (s s1 : State)
             (err : option error) (t1 : list event)
             (c : Int64Counter) (h : Float64Histogram),
         handler srv ss s = (Returned err, s1, t1) ->
         metrics s1 = mkMetrics (Some c) (Some h) ->
         StreamServerMetricsInterceptor srv ss info handler s
         = (Returned err, s1,
            t1 ++ [EvAdd c 1 [("method", attribute_String (stream_FullMethod info));
                              ("status_code", attribute_Int (status_Code err))];
                   EvRecord h (Duration_Seconds (clock s1 - clock s))
                            [("method", attribute_String (stream_FullMethod info));
                             ("status_code", attribute_Int (status_Code err))]]))
  /\ status_Code None = codes_OK
  /\ (forall code msg, status_Code (Some (status_Error code msg)) = code).
Proof.
  split; [|split; [|split; reflexivity]].
  - intros Req Resp ctx req info handler s s1 resp err t1 c h Hh Hm.
    rewrite UnaryServerMetricsInterceptor_unfold, Hh, Hm. reflexivity.
  - intros Srv srv ss info handler s s1 err t1 c h Hh Hm.
    rewrite StreamServerMetricsInterceptor_unfold, Hh, Hm. reflexivity.
Qed.

Lemma C8_witness :
  UnaryServerMetricsInterceptor ctx_Background "id-1" (mkUnaryInfo "/users.Users/Get")
    sample_unary state_with_metrics
  = (Returned ("", Some (status_Error 5 "no such user")),
     set_clock 1500000000 state_with_metrics,
     [EvAdd sample_counter 1
            [("method", attribute_String "/users.Users/Get");
             ("status_code", attribute_Int 5)];
      EvRecord sample_histogram (Duration_Seconds 1500000000)
               [("method", attribute_String "/users.Users/Get");
                ("status_code", attribute_Int 5)]])
  /\ StreamServerMetricsInterceptor tt (mkServerStream ctx_Background)
       (mkStreamInfo "/users.Users/Watch") sample_stream state_with_metrics
     = (Returned (Some (fmt_Errorf_w "recv: " (status_Error 14 "unavailable"))),
        state_with_metrics,
        [EvAdd sample_counter 1
               [("method", attribute_String "/users.Users/Watch");
                ("status_code", attribute_Int 14)];
         EvRecord sample_histogram (Duration_Seconds 0)
                  [("method", attribute_String "/users.Users/Watch");
                   ("status_code", attribute_Int 14)]]).
Proof.
  destruct C8_rpc_status_code as (Hunary & Hstream & _).
  split.
  - exact (Hunary string string ctx_Background "id-1"
             (mkUnaryInfo "/users.Users/Get") sample_unary state_with_metrics
             (set_clock 1500000000 state_with_metrics) ""
             (Some (status_Error 5 "no such user")) []
             sample_counter sample_histogram eq_refl eq_refl).
  - exact (Hstream unit tt (mkServerStream ctx_Background)
             (mkStreamInfo "/users.Users/Watch") sample_stream state_with_metrics
             state_with_metrics _ [] sample_counter sample_histogram
             eq_refl eq_refl).
Defined.

(* ===================================================================== *)
(** ** The inbound HTTP wrapper *)

Lemma last_cons_default (a d : Z) (l : list Z) : List.last (a :: l) d = List.last l a.
Proof.
  revert a d. induction l as [|b l IH]; intros a d; [reflexivity|].
  change (List.last (a :: b :: l) d) with (List.last (b :: l) d).
  now rewrite !IH.
Qed.

(** The wrapper tracks the status of the latest [WriteHeader]. *)
Lemma ServeHTTP_statusCode (next : http_Handler) :
  forall (rw rw' : responseWriter) (s s' : State) (t : list event),
    ServeHTTP next rw s = (Returned rw', s', t) ->
    statusCode rw' = List.last (written_codes next) (statusCode rw).
Proof.
  induction next as [|[code|data|work] rest IH]; intros rw rw' s s' t H;
    cbn [ServeHTTP written_codes] in *.
  - unfold ret in H. now inversion H.
  - rewrite last_cons_default. apply IH in H. exact H.
  - apply IH in H. exact H.
  - unfold bind in H. destruct (work s) as [[[[]|p] s1] t1]; [|discriminate].
    destruct (ServeHTTP rest rw s1) as [[r s2] t2] eqn:E.
    inversion H; subst. eapply IH. exact E.
Qed.

(** The server's writer keeps the status committed first. *)
Lemma ServeHTTP_committed (next : http_Handler) :
  forall (rw rw' : responseWriter) (s s' : State) (t : list event),
    ServeHTTP next rw s = (Returned rw', s', t) ->
    committed (ResponseWriter rw')
    = match committed (ResponseWriter rw) with
      | Some code => Some code
      | None => first_commit next
      end.
Proof.
  induction next as [|[code|data|work] rest IH]; intros rw rw' s s' t H; simpl in *.
  - unfold ret in H. inversion H; subst. now destruct (committed (ResponseWriter rw')).
  - apply IH in H. rewrite H. unfold WriteHeader, http_WriteHeader; simpl.
    destruct (committed (ResponseWriter rw)) eqn:E; simpl; [now rewrite E|reflexivity].
  - apply IH in H. rewrite H. unfold Write, http_Write, http_WriteHeader; simpl.
    destruct (committed (ResponseWriter rw)) eqn:E; simpl; [now rewrite E|reflexivity].
  - unfold bind in H. destruct (work s) as [[[[]|p] s1] t1]; [|discriminate].
    destruct (ServeHTTP rest rw s1) as [[r s2] t2] eqn:E.
    inversion H; subst. eapply IH. exact E.
Qed.

(** C2 on the code.  With the instruments set up and a handler that
    returns, [MetricsMiddleware] records as status_code the status of the
    LAST [WriteHeader] call of the handler (200 when there is none), while
    the server's own writer keeps the status committed FIRST.  For a
    handler that writes 404 and then 200 the recorded status is 200, not
    404. *)
Theorem C2_last_WriteHeader_is_recorded
    (next : http_Handler) (w : http_ResponseWriter) (r : Request)
    (s s1 : State) (rw : responseWriter) (t1 : list event)
    (c : Int64Counter) (h : Float64Histogram) :
  ServeHTTP next (NewResponseWriter w) s = (Returned rw, s1, t1) ->
  metrics s1 = mkMetrics (Some c) (Some h) ->
  committed w = None ->
  let recorded := List.last (written_codes next) http_StatusOK in
  MetricsMiddleware next w r s
  = (Returned (ResponseWriter rw), s1,
     t1 ++ [EvAdd c 1 [("method", attribute_String (req_Method r));
                       ("path", attribute_String (req_URL_Path r));
                       ("status_code", attribute_Int recorded)];
            EvRecord h (Duration_Seconds (clock s1 - clock s))
                     [("method", attribute_String (req_Method r));
                      ("path", attribute_String (req_URL_Path r));
                      ("status_code", attribute_Int recorded)]])
  /\ committed (ResponseWriter rw) = first_commit next.
Proof.
  intros Hh Hm Hw recorded. split.
  - rewrite MetricsMiddleware_unfold, Hh, Hm.
    unfold Status. rewrite (ServeHTTP_statusCode _ _ _ _ _ _ Hh). reflexivity.
  - rewrite (ServeHTTP_committed _ _ _ _ _ _ Hh). simpl. now rewrite Hw.
Qed.

Lemma C2_witness :
  MetricsMiddleware handler_404_then_200 fresh_writer sample_request
                    state_with_metrics
  = (Returned (mkHttpWriter (Some 404) ""), state_with_metrics,
     [EvAdd sample_counter 1
            [("method", attribute_String "GET");
             ("path", attribute_String "/missing");
             ("status_code", attribute_Int 200)];
      EvRecord sample_histogram (Duration_Seconds 0)
               [("method", attribute_String "GET");
                ("path", attribute_String "/missing");
                ("status_code", attribute_Int 200)]])
  /\ committed (mkHttpWriter (Some 404) "") = Some 404.
Proof.
  exact (C2_last_WriteHeader_is_recorded handler_404_then_200 fresh_writer
           sample_request state_with_metrics state_with_metrics
           (mkResponseWriter (mkHttpWriter (Some 404) "") 200) []
           sample_counter sample_histogram eq_refl eq_refl eq_refl).
Defined.

(** A handler that never calls [WriteHeader] is recorded with status 200. *)
Lemma MetricsMiddleware_default_status (w : http_ResponseWriter) (r : Request)
      (s0 : State) (c : Int64Counter) (h : Float64Histogram) (data : string) :
  let s := set_metrics (mkMetrics (Some c) (Some h)) s0 in
  trace_of (MetricsMiddleware [OpWrite data] w r s)
  = [EvAdd c 1 (http_attrs r 200);
     EvRecord h (Duration_Seconds (clock s0 - clock s0)) (http_attrs r 200)].
Proof. reflexivity. Qed.

(* ===================================================================== *)
(** ** The span helper *)

(** C7. Whenever the package tracer is nil or no channel is memoized, in
    particular before any trace setup, [StartSpan] returns at once, without
    touching the state or the outside, a no-op span and the context derived
    from [ctx] that carries it; ending that span never fails and does no
    I/O. *)
Theorem C7_StartSpan_before_setup
    (caller : Caller) (ctx : Ctx) (opts : list SpanStartOption) (s : State) :
  tracer s = None \/ grpcConnection s = None ->
  StartSpan caller ctx opts s
  = (Returned (ctx_WithSpan ctx NoopSpan, NoopSpan), s, [])
  /\ forall s' : State, span_End NoopSpan s' = (Returned tt, s', []).
Proof.
  intros H. split; [|reflexivity].
  unfold StartSpan. run_monad.
  destruct H as [-> | ->]; [reflexivity|].
  destruct (tracer s); reflexivity.
Qed.

Lemma C7_witness :
  StartSpan (mkCaller "main.handle" 42) ctx_Background [] initial_state
  = (Returned (ctx_WithSpan ctx_Background NoopSpan, NoopSpan), initial_state, []).
Proof.
  apply (C7_StartSpan_before_setup (mkCaller "main.handle" 42) ctx_Background []
           initial_state).
  left. reflexivity.
Defined.

(** Once tracing is set up, the helper names the span after its caller. *)
Lemma StartSpan_after_setup :
  outcome_of
    (StartSpan (mkCaller "main.handle" 42) ctx_Background []
       (state_of (NewTraceProvider world_on "svc" initial_state)))
  = Returned
      (let tp := mkTracerProvider AlwaysSample
                   [("service.name", attribute_String "svc");
                    ("service.version", attribute_String "");
                    ("deployment.environment", attribute_String "");
                    ("host.name", attribute_String "node-1")]
                   (BatchSpanProcessor (mkTraceExporter 7%nat)) in
       (ctx_WithSpan ctx_Background (SdkSpan tp "main.handle:42"),
        SdkSpan tp "main.handle:42")).
Proof. vm_compute. reflexivity. Qed.

(* ===================================================================== *)
(** ** More on the connection manager *)

Lemma initCollector_ok_memoizes (W : World) (s s1 : State) (conn : Conn)
      (t1 : list event) :
  initCollector W s = (Returned (GoOk conn), s1, t1) ->
  grpcConnection s1 = Some conn
  /\ (s1 = s \/ s1 = set_grpcConnection (Some conn) s).
Proof.
  intros H. destruct (initCollector_cases W s); inversion H; subst; auto.
Qed.

Lemma initCollector_err_state (W : World) (s s1 : State) (e : error)
      (t1 : list event) :
  initCollector W s = (Returned (GoErr e), s1, t1) ->
  s1 = s /\ grpcConnection s = None /\ channels_opened t1 = 0%nat.
Proof.
  intros H. destruct (initCollector_cases W s); inversion H; subst; auto.
Qed.

(** X1. Every failure of [initCollector] is one of three errors: the
    disabled error, the missing-endpoint error, or the dial error wrapping
    the cause reported by [grpc.NewClient].  A failed call memoizes nothing
    and leaves the whole process state as it was, so the next call, in
    whatever world, starts afresh: failures are not cached.  Only the third
    kind of failure has dialled, and exactly once. *)
Theorem X1_initCollector_failures (W : World) (s : State) (e : error) :
  outcome_of (initCollector W s) = Returned (GoErr e) ->
  state_of (initCollector W s) = s
  /\ (forall W' : World,
         initCollector W' (state_of (initCollector W s)) = initCollector W' s)
  /\ ((e = errors_New msg_disabled /\ trace_of (initCollector W s) = [])
      \/ (e = errors_New msg_endpoint /\ trace_of (initCollector W s) = [])
      \/ (exists cause,
             e = fmt_Errorf_w msg_dial cause
             /\ grpc_NewClient W (os_Getenv W "OTEL_COLLECTOR_ENDPOINT")
                = GoErr cause
             /\ trace_of (initCollector W s)
                = [EvDial (os_Getenv W "OTEL_COLLECTOR_ENDPOINT") (GoErr cause)])).
Proof.
  intros H.
  destruct (initCollector_cases W s) as [conn Hc|Hc ?|Hc ? ?|cause Hc ? ? Hd|conn Hc ? ? ?];
    unfold outcome_of, state_of, trace_of in *; simpl in *;
    try discriminate; inversion H; subst; (split; [reflexivity|split; [reflexivity|]]).
  - left. auto.
  - right. left. auto.
  - right. right. exists cause. auto.
Qed.

Lemma X1_witness :
  state_of (initCollector world_unreachable initial_state) = initial_state
  /\ initCollector world_on (state_of (initCollector world_unreachable initial_state))
     = initCollector world_on initial_state.
Proof.
  destruct (X1_initCollector_failures world_unreachable initial_state
              (fmt_Errorf_w msg_dial (errors_New "no route")) eq_refl)
    as (H1 & H2 & _).
  split; [exact H1|apply H2].
Defined.

(** X2. When [IsEnabled] reports true and no channel is memoized,
    [initCollector] is never refused as disabled: it either fails with the
    missing-endpoint error (the endpoint variable is set but empty) or
    dials the configured endpoint. *)
Theorem X2_IsEnabled_passes_flag_check (W : World) (s : State) :
  IsEnabled W = true ->
  grpcConnection s = None ->
  outcome_of (initCollector W s) <> Returned (GoErr (errors_New msg_disabled))
  /\ ((os_Getenv W "OTEL_COLLECTOR_ENDPOINT" = ""
       /\ initCollector W s = (Returned (GoErr (errors_New msg_endpoint)), s, []))
      \/ (os_Getenv W "OTEL_COLLECTOR_ENDPOINT" <> ""
          /\ dials (trace_of (initCollector W s))
             = [EvDial (os_Getenv W "OTEL_COLLECTOR_ENDPOINT")
                       (grpc_NewClient W (os_Getenv W "OTEL_COLLECTOR_ENDPOINT"))])).
Proof.
  intros Hen Hc.
  assert (Hflag : strings_ToLower W (os_Getenv W "OTEL_ENABLE") = "true").
  { apply IsEnabled_spec in Hen as [Hen _].
    unfold os_Getenv, os_LookupEnv. rewrite Hen. reflexivity. }
  destruct (initCollector_cases W s) as [conn Hc'|? Hf|? ? Hep|cause ? ? Hep Hd|conn ? ? Hep Hd];
    try congruence; unfold outcome_of, trace_of; simpl.
  - split; [discriminate|]. left. auto.
  - split; [discriminate|]. right. rewrite Hd. auto.
  - split; [discriminate|]. right. rewrite Hd. auto.
Qed.

Lemma X2_witness :
  outcome_of (initCollector world_on initial_state)
  <> Returned (GoErr (errors_New msg_disabled)).
Proof.
  exact (proj1 (X2_IsEnabled_passes_flag_check world_on initial_state
                  eq_refl eq_refl)).
Defined.

(** *** Which ASCII flags are accepted *)

Ltac by_byte_cases c :=
  destruct c as [[] [] [] [] [] [] [] []]; vm_compute; intros H;
  try discriminate H; auto.

Lemma lower_byte_t (c : ascii) :
  lower_byte c = "t"%char -> c = "t"%char \/ c = "T"%char.
Proof. by_byte_cases c. Qed.

Lemma lower_byte_r (c : ascii) :
  lower_byte c = "r"%char -> c = "r"%char \/ c = "R"%char.
Proof. by_byte_cases c. Qed.

Lemma lower_byte_u (c : ascii) :
  lower_byte c = "u"%char -> c = "u"%char \/ c = "U"%char.
Proof. by_byte_cases c. Qed.

Lemma lower_byte_e (c : ascii) :
  lower_byte c = "e"%char -> c = "e"%char \/ c = "E"%char.
Proof. by_byte_cases c. Qed.

Lemma lower_ascii_true_iff (flag : string) :
  lower_ascii flag = "true" <-> In flag true_variants.
Proof.
  split.
  - destruct flag as [|c1 [|c2 [|c3 [|c4 [|c5 rest]]]]]; simpl; try discriminate.
    intros H. injection H as H1 H2 H3 H4.
    apply lower_byte_t in H1. apply lower_byte_r in H2.
    apply lower_byte_u in H3. apply lower_byte_e in H4.
    destruct H1, H2, H3, H4; subst; simpl; tauto.
  - intros H. simpl in H.
    repeat (destruct H as [H|H]; [subst; reflexivity|]). contradiction.
Qed.

(** X3. For a flag value made of ASCII bytes, the enablement check of
    [initCollector] passes exactly for the sixteen spellings of "true" in
    upper and lower case: with no channel memoized, every other ASCII value
    (the empty or unset one included) gives the disabled error, and none of
    the sixteen does. *)
Theorem X3_accepted_flag_spellings (W : World) (s : State) :
  isASCII (os_Getenv W "OTEL_ENABLE") = true ->
  grpcConnection s = None ->
  (initCollector W s = (Returned (GoErr (errors_New msg_disabled)), s, [])
   <-> ~ In (os_Getenv W "OTEL_ENABLE") true_variants).
Proof.
  intros Hascii Hc.
  assert (Hlow : strings_ToLower W (os_Getenv W "OTEL_ENABLE")
                 = lower_ascii (os_Getenv W "OTEL_ENABLE"))
    by (unfold strings_ToLower; now rewrite Hascii).
  rewrite <- lower_ascii_true_iff, <- Hlow.
  destruct (initCollector_cases W s) as [conn Hc'|? Hf|? Hf Hep|cause ? Hf Hep Hd|conn ? Hf Hep Hd];
    try congruence.
  - tauto.
  - split; [discriminate|congruence].
  - split; [discriminate|congruence].
  - split; [discriminate|congruence].
Qed.

Lemma X3_witness :
  initCollector world_off initial_state
  = (Returned (GoErr (errors_New msg_disabled)), initial_state, []).
Proof.
  apply (X3_accepted_flag_spellings world_off initial_state eq_refl eq_refl).
  vm_compute. intros H.
  repeat (destruct H as [H|H]; [discriminate H|]). exact H.
Defined.

(* ===================================================================== *)
(** ** More on provider setup *)

(** X5. [NewTraceProvider] never panics and has two kinds of result.
    Either it returns the nil provider together with the empty cleanup, and
    then the provider and the propagator registered in package [otel] are
    as before the call.  Or it returns a provider together with that
    provider's shutdown closure, and then: a channel is memoized; the
    provider samples always, carries the resource of [newResource] and
    batches onto an exporter over the memoized channel; it is the provider
    registered in package [otel]; the registered propagator is Baggage
    followed by TraceContext; and the package tracer is this provider's
    tracer named after the service. *)
Theorem X5_NewTraceProvider_outcomes (W : World) (service : string) (s : State) :
  (outcome_of (NewTraceProvider W service s) = Returned (None, cleanup_empty)
   /\ otel_TracerProvider (state_of (NewTraceProvider W service s))
      = otel_TracerProvider s
   /\ otel_TextMapPropagator (state_of (NewTraceProvider W service s))
      = otel_TextMapPropagator s)
  \/ (exists tp conn res,
         outcome_of (NewTraceProvider W service s)
         = Returned (Some tp, cleanup_tracer tp)
         /\ tp = mkTracerProvider AlwaysSample res
                   (BatchSpanProcessor (mkTraceExporter conn))
         /\ newResource W service = GoOk res
         /\ grpcConnection (state_of (NewTraceProvider W service s)) = Some conn
         /\ tracer (state_of (NewTraceProvider W service s))
            = Some (SdkTracer tp service)
         /\ otel_TracerProvider (state_of (NewTraceProvider W service s)) = Some tp
         /\ otel_TextMapPropagator (state_of (NewTraceProvider W service s))
            = [Baggage; TraceContext]).
Proof.
  rewrite NewTraceProvider_unfold.
  destruct (initCollector W s) as [[[[conn|err]|p] s1] t1] eqn:Hinit.
  - destruct (initCollector_ok_memoizes _ _ _ _ _ Hinit) as (Hconn & Hs1).
    assert (Hg : otel_TracerProvider s1 = otel_TracerProvider s
                 /\ otel_TextMapPropagator s1 = otel_TextMapPropagator s)
      by (destruct Hs1; subst; auto).
    destruct (otlptracegrpc_New W conn); [left; tauto|].
    destruct (newResource W service) as [res|err]; [|left; tauto].
    right. do 3 eexists. repeat split; eauto.
  - apply initCollector_err_state in Hinit as (-> & _). left. auto.
  - destruct (initCollector_cases W s); discriminate.
Qed.



(** X7. Tracing that was never set up stays inert after a failed setup:
    if the package tracer is nil and [NewTraceProvider] returns the nil
    provider, whatever the reason, then [StartSpan] in the resulting state
    yields a no-op span. *)
Theorem X7_failed_setup_keeps_spans_noop
    (W : World) (service : string) (s : State)
    (caller : Caller) (ctx : Ctx) (opts : list SpanStartOption) :
  tracer s = None ->
  outcome_of (NewTraceProvider W service s) = Returned (None, cleanup_empty) ->
  outcome_of (StartSpan caller ctx opts (state_of (NewTraceProvider W service s)))
  = Returned (ctx_WithSpan ctx NoopSpan, NoopSpan).
Proof.
  intros Htr. rewrite NewTraceProvider_unfold.
  pose proof (proj1 (initCollector_keeps_globals W s)) as Hkeep.
  destruct (initCollector W s) as [[[[conn|err]|p] s1] t1] eqn:Hinit;
    unfold outcome_of, state_of in *; simpl in *.
  - rewrite Htr in Hkeep.
    destruct (otlptracegrpc_New W conn);
      [|destruct (newResource W service)]; simpl; intros H; try discriminate;
      unfold StartSpan; run_monad; rewrite Hkeep; reflexivity.
  - intros _. apply initCollector_err_state in Hinit as (-> & Hc & _).
    unfold StartSpan. run_monad. rewrite Hc. reflexivity.
  - discriminate.
Qed.

Lemma X7_witness :
  outcome_of (StartSpan (mkCaller "main.handle" 42) ctx_Background []
                (state_of (NewTraceProvider world_no_exporter "svc" initial_state)))
  = Returned (ctx_WithSpan ctx_Background NoopSpan, NoopSpan).
Proof.
  apply (X7_failed_setup_keeps_spans_noop world_no_exporter "svc" initial_state);
    reflexivity.
Defined.

(** X8. After a successful [NewTraceProvider], [StartSpan] starts a span of
    the returned provider, named after the caller's function and line
    ("function:line"), carries it in the returned context and changes
    nothing; ending the span exports it over the memoized channel. *)
Theorem X8_spans_after_setup
    (W : World) (service : string) (s : State) (tp : TracerProvider)
    (clean : cleanupFn) (caller : Caller) (ctx : Ctx)
    (opts : list SpanStartOption) :
  outcome_of (NewTraceProvider W service s) = Returned (Some tp, clean) ->
  let s' := state_of (NewTraceProvider W service s) in
  let sp := SdkSpan tp (fn_Name caller +:+ ":" +:+ pretty (caller_line caller)) in
  StartSpan caller ctx opts s' = (Returned (ctx_WithSpan ctx sp, sp), s', [])
  /\ exists conn,
       grpcConnection s' = Some conn
       /\ span_End sp s'
          = (Returned tt, s',
             [EvExportSpan conn
                (fn_Name caller +:+ ":" +:+ pretty (caller_line caller))]).
Proof.
  intros Hout s' sp. subst s' sp. revert Hout.
  rewrite NewTraceProvider_unfold.
  destruct (initCollector W s) as [[[[conn|err]|p] s1] t1] eqn:Hinit;
    unfold outcome_of, state_of; simpl; try discriminate.
  destruct (initCollector_ok_memoizes _ _ _ _ _ Hinit) as (Hconn & _).
  destruct (otlptracegrpc_New W conn); simpl; [discriminate|].
  destruct (newResource W service) as [res|err]; simpl; [|discriminate].
  intros Hout. injection Hout as <- _. split.
  - unfold StartSpan. run_monad. rewrite Hconn. reflexivity.
  - exists conn. split; [exact Hconn|reflexivity].
Qed.

Lemma X8_witness :
  outcome_of (StartSpan (mkCaller "main.handle" 42) ctx_Background []
                (state_of (NewTraceProvider world_on "svc" initial_state)))
  = Returned
      (let tp := mkTracerProvider AlwaysSample
                   [("service.name", attribute_String "svc");
                    ("service.version", attribute_String "");
                    ("deployment.environment", attribute_String "");
                    ("host.name", attribute_String "node-1")]
                   (BatchSpanProcessor (mkTraceExporter 7%nat)) in
       (ctx_WithSpan ctx_Background (SdkSpan tp "main.handle:42"),
        SdkSpan tp "main.handle:42")).
Proof.
  rewrite (proj1 (X8_spans_after_setup world_on "svc" initial_state _ _
                    (mkCaller "main.handle" 42) ctx_Background [] eq_refl)).
  reflexivity.
Defined.

(** X9. In every state [StartSpan] returns normally, writes no package
    variable and does nothing to the outside, and the context it returns
    is the given one extended with the span it returns.  The span belongs
    to an SDK provider only when the package tracer is an SDK tracer and a
    channel is memoized; a no-op tracer installed by a failed setup keeps
    yielding no-op spans even after a channel has been memoized (by a later
    [NewMeterProvider], say). *)
Theorem X9_StartSpan_every_state
    (caller : Caller) (ctx : Ctx) (opts : list SpanStartOption) (s : State) :
  exists sp : Span,
    StartSpan caller ctx opts s = (Returned (ctx_WithSpan ctx sp, sp), s, [])
    /\ (sp <> NoopSpan ->
        exists tp name conn,
          tracer s = Some (SdkTracer tp name)
          /\ grpcConnection s = Some conn
          /\ sp = SdkSpan tp (fn_Name caller +:+ ":" +:+ pretty (caller_line caller)))
    /\ (forall name, tracer s = Some (NoopTracer name) -> sp = NoopSpan).
Proof.
  unfold StartSpan. run_monad.
  destruct (tracer s) as [[name|tp name]|]; destruct (grpcConnection s) as [conn|];
    simpl; eexists; (split; [reflexivity|]); split;
    try congruence; try (intros; reflexivity).
  intros _. exists tp, name, conn. auto.
Qed.

(** X10. [NewMeterProvider] never panics and either completes or returns
    the empty cleanup.  When it completes, the shutdown it returns is that
    of the meter provider registered in package [otel], whose periodic
    reader exports over the memoized channel and whose resource is that of
    [newResource]; the instruments are set.  When it returns the empty
    cleanup the instruments are as before the call. *)
Theorem X10_NewMeterProvider_outcomes (W : World) (service : string) (s : State) :
  (outcome_of (NewMeterProvider W service s) = Returned cleanup_empty
   /\ metrics (state_of (NewMeterProvider W service s)) = metrics s)
  \/ (exists mp conn res,
         outcome_of (NewMeterProvider W service s) = Returned (cleanup_meter mp)
         /\ mp = mkMeterProvider (PeriodicReader (mkMetricExporter conn)) res
         /\ newResource W service = GoOk res
         /\ grpcConnection (state_of (NewMeterProvider W service s)) = Some conn
         /\ otel_MeterProvider (state_of (NewMeterProvider W service s)) = Some mp
         /\ is_Some (RequestCounter (metrics (state_of (NewMeterProvider W service s))))
         /\ is_Some (RequestHistogram
                       (metrics (state_of (NewMeterProvider W service s))))).
Proof.
  rewrite NewMeterProvider_unfold.
  pose proof (proj2 (initCollector_keeps_globals W s)) as Hkeep.
  destruct (initCollector W s) as [[[[conn|err]|p] s1] t1] eqn:Hinit;
    unfold outcome_of, state_of in *; simpl in *.
  - destruct (initCollector_ok_memoizes _ _ _ _ _ Hinit) as (Hconn & _).
    destruct (otlpmetricgrpc_New W conn); [left; auto|].
    destruct (newResource W service) as [res|err]; [|left; auto].
    destruct (meter_Int64Counter W "http_requests_total"); [left; auto|].
    destruct (meter_Float64Histogram W "http_request_duration_seconds");
      [left; auto|].
    right. do 3 eexists. simpl. repeat split; eauto.
  - left. auto.
  - destruct (initCollector_cases W s); discriminate.
Qed.

(** X11. If the channel, the metric exporter and the resource are there but
    the counter or the histogram cannot be created, [NewMeterProvider] has
    already registered the new meter provider in package [otel] when it
    gives up: it returns the empty cleanup, so the caller gets no handle to
    shut that provider down, and the instruments stay as they were. *)
Theorem X11_instrument_failure_leaves_provider_registered
    (W : World) (service : string) (s s1 : State) (conn : Conn)
    (t1 : list event) (res : Resource) :
  initCollector W s = (Returned (GoOk conn), s1, t1) ->
  otlpmetricgrpc_New W conn = None ->
  newResource W service = GoOk res ->
  is_Some (meter_Int64Counter W "http_requests_total")
  \/ is_Some (meter_Float64Histogram W "http_request_duration_seconds") ->
  exists line,
    NewMeterProvider W service s
    = (Returned cleanup_empty,
       set_otel_MeterProvider
         (Some (mkMeterProvider (PeriodicReader (mkMetricExporter conn)) res)) s1,
       t1 ++ [EvLog line])
    /\ metrics s1 = metrics s.
Proof.
  intros Hinit Hexp Hres Hfail.
  pose proof (proj2 (initCollector_keeps_globals W s)) as Hkeep.
  rewrite NewMeterProvider_unfold, Hinit, Hexp, Hres.
  rewrite Hinit in Hkeep. unfold state_of in Hkeep; simpl in Hkeep.
  destruct (meter_Int64Counter W "http_requests_total") as [e1|].
  - eexists. split; [reflexivity|exact Hkeep].
  - destruct Hfail as [[? Hf]|[e2 Hf]]; [discriminate|]. rewrite Hf.
    eexists. split; [reflexivity|exact Hkeep].
Qed.

Lemma X11_witness :
  exists line,
    NewMeterProvider world_no_histogram "svc" initial_state
    = (Returned cleanup_empty,
       set_otel_MeterProvider
         (Some (mkMeterProvider (PeriodicReader (mkMetricExporter 7%nat))
                  [("service.name", attribute_String "svc");
                   ("service.version", attribute_String "");
                   ("deployment.environment", attribute_String "")]))
         (set_grpcConnection (Some 7%nat) initial_state),
       [EvDial "localhost:4317" (GoOk 7%nat); EvPrintln "grpc connection success"]
       ++ [EvLog line])
    /\ metrics (set_grpcConnection (Some 7%nat) initial_state)
       = metrics initial_state.
Proof.
  apply (X11_instrument_failure_leaves_provider_registered
           world_no_histogram "svc" initial_state
           (set_grpcConnection (Some 7%nat) initial_state) 7%nat).
  - reflexivity.
  - reflexivity.
  - reflexivity.
  - right. eexists. reflexivity.
Defined.

(** X12. Tracing and metrics share one channel: after a successful
    [NewTraceProvider], a [NewMeterProvider] call, in whatever world, dials
    nothing, and if it completes its exporter sits on the very channel the
    trace exporter uses. *)
Theorem X12_providers_share_the_channel
    (W W2 : World) (service service2 : string) (s : State)
    (tp : TracerProvider) (clean : cleanupFn) :
  outcome_of (NewTraceProvider W service s) = Returned (Some tp, clean) ->
  let s1 := state_of (NewTraceProvider W service s) in
  dials (trace_of (NewMeterProvider W2 service2 s1)) = []
  /\ forall mp,
       outcome_of (NewMeterProvider W2 service2 s1) = Returned (cleanup_meter mp) ->
       match tp_processor tp, mp_reader mp with
       | BatchSpanProcessor te, PeriodicReader me => me_conn me = te_conn te
       end
       /\ grpcConnection (state_of (NewMeterProvider W2 service2 s1))
          = Some (match tp_processor tp with BatchSpanProcessor te => te_conn te end).
Proof.
  intros Hout s1. subst s1. revert Hout.
  rewrite NewTraceProvider_unfold.
  destruct (initCollector W s) as [[[[conn|err]|p] s1] t1] eqn:Hinit;
    unfold outcome_of, state_of; simpl; try discriminate.
  destruct (initCollector_ok_memoizes _ _ _ _ _ Hinit) as (Hconn & _).
  destruct (otlptracegrpc_New W conn); simpl; [discriminate|].
  destruct (newResource W service) as [res|err]; simpl; [|discriminate].
  intros Hout. injection Hout as <- _. simpl.
  set (s2 := set_tracer _ _).
  assert (Hc2 : grpcConnection s2 = Some conn) by exact Hconn.
  rewrite NewMeterProvider_unfold, (initCollector_memoized W2 s2 conn Hc2).
  destruct (otlpmetricgrpc_New W2 conn); simpl; [split; [reflexivity|discriminate]|].
  destruct (newResource W2 service2); simpl; [|split; [reflexivity|discriminate]].
  destruct (meter_Int64Counter W2 "http_requests_total"); simpl;
    [split; [reflexivity|discriminate]|].
  destruct (meter_Float64Histogram W2 "http_request_duration_seconds"); simpl;
    [split; [reflexivity|discriminate]|].
  split; [reflexivity|]. intros mp Hmp. injection Hmp as <-. simpl. auto.
Qed.

Lemma X12_witness :
  dials (trace_of (NewMeterProvider world_off "metrics"
                     (state_of (NewTraceProvider world_on "svc" initial_state))))
  = [].
Proof.
  exact (proj1 (X12_providers_share_the_channel world_on world_off "svc" "metrics"
                  initial_state _ _ eq_refl)).
Defined.

(** Calling a cleanup never panics and writes no package variable; the
    empty cleanup does nothing, the others shut down their provider once,
    and a shutdown error is only logged. *)
Lemma call_cleanup_effects (W : World) (f : cleanupFn) (s : State) :
  exists t,
    call_cleanup W f s = (Returned tt, s, t)
    /\ match f with
       | cleanup_empty => t = []
       | cleanup_tracer tp =>
           match tp_Shutdown W with
           | None => t = [EvTracerShutdown tp]
           | Some err =>
               t = [EvTracerShutdown tp;
                    EvLog ("error shutting down tracer provider: " +:+ Error err)]
           end
       | cleanup_meter mp =>
           match mp_Shutdown W with
           | None => t = [EvMeterShutdown mp]
           | Some err =>
               t = [EvMeterShutdown mp;
                    EvLog ("error shutting down meter provider: " +:+ Error err)]
           end
       end.
Proof.
  destruct f as [|tp|mp]; unfold call_cleanup; run_monad.
  - eauto.
  - destruct (tp_Shutdown W); eauto.
  - destruct (mp_Shutdown W); eauto.
Qed.

(** X13. The cleanup a setup function returns, called later in whatever
    world, never panics and writes no package variable: the channel stays
    memoized and open, the package tracer and the instruments stay set.
    Returned with a nil provider (or by a [NewMeterProvider] that did not
    complete) it does nothing at all.  Returned by a successful
    [NewTraceProvider] it shuts down exactly the provider returned with
    it, returned by a completed [NewMeterProvider] exactly the meter
    provider registered in package [otel]; a shutdown error is logged and
    nothing else happens. *)
Theorem X13_returned_cleanup (W W' : World) (service : string) (s : State) :
  (forall (otp : option TracerProvider) (f : cleanupFn),
      outcome_of (NewTraceProvider W service s) = Returned (otp, f) ->
      exists t,
        call_cleanup W' f (state_of (NewTraceProvider W service s))
        = (Returned tt, state_of (NewTraceProvider W service s), t)
        /\ match otp, tp_Shutdown W' with
           | None, _ => t = []
           | Some tp, None => t = [EvTracerShutdown tp]
           | Some tp, Some err =>
               t = [EvTracerShutdown tp;
                    EvLog ("error shutting down tracer provider: " +:+ Error err)]
           end)
  /\ (forall f : cleanupFn,
         outcome_of (NewMeterProvider W service s) = Returned f ->
         exists t,
           call_cleanup W' f (state_of (NewMeterProvider W service s))
           = (Returned tt, state_of (NewMeterProvider W service s), t)
           /\ match otel_MeterProvider (state_of (NewMeterProvider W service s)),
                    f, mp_Shutdown W' with
              | _, cleanup_empty, _ => t = []
              | Some mp, cleanup_meter mp', None =>
                  mp' = mp /\ t = [EvMeterShutdown mp]
              | Some mp, cleanup_meter mp', Some err =>
                  mp' = mp
                  /\ t = [EvMeterShutdown mp;
                          EvLog ("error shutting down meter provider: "
                                 +:+ Error err)]
              | _, _, _ => False
              end).
Proof.
  split.
  - intros otp f Hout.
    destruct (call_cleanup_effects W' f (state_of (NewTraceProvider W service s)))
      as (t & Hrun & Ht).
    exists t. split; [exact Hrun|]. revert Hout Ht.
    rewrite NewTraceProvider_unfold.
    destruct (initCollector W s) as [[[[conn|err]|p] s1] t1];
      unfold outcome_of; simpl; try discriminate.
    + destruct (otlptracegrpc_New W conn);
        [|destruct (newResource W service)]; simpl;
        intros Hout; injection Hout as <- <-; auto.
    + intros Hout; injection Hout as <- <-; auto.
  - intros f Hout.
    destruct (call_cleanup_effects W' f (state_of (NewMeterProvider W service s)))
      as (t & Hrun & Ht).
    exists t. split; [exact Hrun|]. revert Hout Ht.
    rewrite NewMeterProvider_unfold.
    destruct (initCollector W s) as [[[[conn|err]|p] s1] t1];
      unfold outcome_of, state_of; simpl; try discriminate.
    + destruct (otlpmetricgrpc_New W conn);
        [|destruct (newResource W service);
          [destruct (meter_Int64Counter W "http_requests_total");
           [|destruct (meter_Float64Histogram W "http_request_duration_seconds")]|]];
        simpl; intros Hout; injection Hout as <-; simpl;
        try (intros ->; now destruct (otel_MeterProvider s1)); try tauto.
      destruct (mp_Shutdown W'); auto.
    + intros Hout; injection Hout as <-. intros ->.
      now destruct (otel_MeterProvider s1).
Qed.

(* ===================================================================== *)
(** ** More on the wrappers *)

Lemma ServeHTTP_vs_bare (next : http_Handler) :
  forall (rw : responseWriter) (s : State),
    serve_bare next (ResponseWriter rw) s
    = match ServeHTTP next rw s with
      | (Returned rw', s', t) => (Returned (ResponseWriter rw'), s', t)
      | (Panicked p, s', t) => (Panicked p, s', t)
      end.
Proof.
  induction next as [|[code|data|work] rest IH]; intros rw s;
    cbn [serve_bare ServeHTTP].
  - reflexivity.
  - apply (IH (WriteHeader code rw)).
  - apply (IH (Write data rw)).
  - unfold bind. destruct (work s) as [[[[]|p] s1] t1]; [|reflexivity].
    rewrite (IH rw s1).
    destruct (ServeHTTP rest rw s1) as [[[rw'|p] s2] t2]; reflexivity.
Qed.

(** X14. The wrapper forwards the writer calls of the handler unchanged.
    For a handler that uses the writer it is given only through
    [WriteHeader] and [Write], and passes [WriteHeader] final status codes
    only (200 to 999): run through [MetricsMiddleware], it leaves the
    server's writer exactly as it does when it runs on the bare writer,
    with the same process state and the same events; with the instruments
    set the middleware only adds, after the handler's own events, one [Add]
    and one [Record] with the same attributes.  (A handler that asks the
    writer for more than these methods is outside this statement.) *)
Theorem X14_middleware_forwards_writer_calls
    (next : http_Handler) (w w' : http_ResponseWriter) (r : Request)
    (s s1 : State) (t1 : list event) (c : Int64Counter) (h : Float64Histogram) :
  Forall (fun code => 200 <= code <= 999) (written_codes next) ->
  serve_bare next w s = (Returned w', s1, t1) ->
  metrics s1 = mkMetrics (Some c) (Some h) ->
  exists status seconds,
    MetricsMiddleware next w r s
    = (Returned w', s1,
       t1 ++ [EvAdd c 1 (http_attrs r status);
              EvRecord h seconds (http_attrs r status)]).
Proof.
  intros _ Hbare Hm.
  change w with (ResponseWriter (NewResponseWriter w)) in Hbare.
  rewrite ServeHTTP_vs_bare in Hbare. rewrite MetricsMiddleware_unfold.
  destruct (ServeHTTP next (NewResponseWriter w) s) as [[[rw|p] s2] t2];
    [|discriminate].
  injection Hbare as <- <- <-. rewrite Hm. do 2 eexists. reflexivity.
Qed.

Lemma X14_witness :
  exists status seconds,
    MetricsMiddleware handler_tick fresh_writer sample_request state_with_metrics
    = (Returned (mkHttpWriter (Some 201) "created"),
       set_clock 250000000 state_with_metrics,
       [] ++ [EvAdd sample_counter 1 (http_attrs sample_request status);
              EvRecord sample_histogram seconds (http_attrs sample_request status)]).
Proof.
  apply (X14_middleware_forwards_writer_calls handler_tick fresh_writer
           (mkHttpWriter (Some 201) "created") sample_request state_with_metrics
           (set_clock 250000000 state_with_metrics) []
           sample_counter sample_histogram); [|reflexivity|reflexivity].
  repeat constructor; simpl; lia.
Defined.

(** X15. None of the three wrappers recovers from a panic or defers the
    recording: when the wrapped handler panics, the wrapper ends in the
    same panic, in the state and after the events the handler left, and
    records nothing, so the request is neither counted nor timed. *)
Theorem X15_handler_panic_is_not_recorded :
  (forall (next : http_Handler) (w : http_ResponseWriter) (r : Request)
          (s s1 : State) (p : panic) (t1 : list event),
      ServeHTTP next (NewResponseWriter w) s = (Panicked p, s1, t1) ->
      MetricsMiddleware next w r s = (Panicked p, s1, t1))
  /\ (forall (Req Resp : Type) (ctx : Ctx) (req : Req) (info : UnaryServerInfo)
             (handler : UnaryHandler Req Resp) (s s1 : State) (p : panic)
             (t1 : list event),
         handler ctx req s = (Panicked p, s1, t1) ->
         UnaryServerMetricsInterceptor ctx req info handler s = (Panicked p, s1, t1))
  /\ (forall (Srv : Type) (srv : Srv) (ss : ServerStream) (info : StreamServerInfo)
             (handler : StreamHandler Srv) (s s1 : State) (p : panic)
             (t1 : list event),
         handler srv ss s = (Panicked p, s1, t1) ->
         StreamServerMetricsInterceptor srv ss info handler s = (Panicked p, s1, t1)).
Proof.
  split; [|split].
  - intros next w r s s1 p t1 H. now rewrite MetricsMiddleware_unfold, H.
  - intros Req Resp ctx req info handler s s1 p t1 H.
    now rewrite UnaryServerMetricsInterceptor_unfold, H.
  - intros Srv srv ss info handler s s1 p t1 H.
    now rewrite StreamServerMetricsInterceptor_unfold, H.
Qed.

Lemma X15_witness :
  MetricsMiddleware
    [OpWriteHeader 202;
     OpDo (_ <- MetricsMiddleware [] fresh_writer sample_request ;; ret tt)]
    fresh_writer sample_request initial_state
  = (Panicked NilCounterAdd, initial_state, []).
Proof.
  apply (proj1 X15_handler_panic_is_not_recorded). reflexivity.
Defined.

Lemma single_commit_agrees (next : http_Handler) :
  single_commit next = true ->
  (first_commit next = None /\ written_codes next = [])
  \/ first_commit next = Some (List.last (written_codes next) http_StatusOK).
Proof.
  induction next as [|[code|data|work] rest IH]; cbn [single_commit first_commit written_codes].
  - auto.
  - destruct (written_codes rest); [auto|discriminate].
  - destruct (written_codes rest); [auto|discriminate].
  - exact IH.
Qed.

(** X16. The status the middleware reports is the status the server sent
    whenever the handler commits once: if the handler calls [WriteHeader]
    at most once, with a final status code (200 to 999, so no
    informational 1xx header and no invalid code), and never after a
    [Write], then on a fresh writer the tracked status equals the status
    committed on the server's writer, or the handler has written nothing
    at all and the tracked status is the default 200. *)
Theorem X16_single_commit_status_agrees
    (next : http_Handler) (w : http_ResponseWriter) (s s1 : State)
    (rw : responseWriter) (t1 : list event) :
  single_commit next = true ->
  Forall (fun code => 200 <= code <= 999) (written_codes next) ->
  committed w = None ->
  ServeHTTP next (NewResponseWriter w) s = (Returned rw, s1, t1) ->
  (committed (ResponseWriter rw) = Some (Status rw)
   /\ 200 <= Status rw <= 999)
  \/ (committed (ResponseWriter rw) = None /\ Status rw = http_StatusOK
      /\ written_codes next = []).
Proof.
  intros Hsingle Hfinal Hw Hrun.
  pose proof (ServeHTTP_statusCode _ _ _ _ _ _ Hrun) as Hst.
  pose proof (ServeHTTP_committed _ _ _ _ _ _ Hrun) as Hco.
  simpl in Hst, Hco. rewrite Hw in Hco. unfold Status. rewrite Hst, Hco.
  destruct (single_commit_agrees next Hsingle) as [(Hn & Hc)|Hs].
  - right. rewrite Hn, Hc. auto.
  - left. split; [exact Hs|].
    destruct (written_codes next) as [|code codes] eqn:Hcodes.
    + unfold http_StatusOK. simpl. lia.
    + assert (Hin : In (List.last (code :: codes) http_StatusOK) (code :: codes)).
      { clear. revert code. induction codes as [|c2 codes IH]; intros code.
        - left. reflexivity.
        - right. apply (IH c2). }
      rewrite List.Forall_forall in Hfinal. exact (Hfinal _ Hin).
Qed.

Lemma X16_witness :
  (committed (mkHttpWriter (Some 201) "created")
   = Some (Status (mkResponseWriter (mkHttpWriter (Some 201) "created") 201))
   /\ 200 <= Status (mkResponseWriter (mkHttpWriter (Some 201) "created") 201)
      <= 999)
  \/ (committed (mkHttpWriter (Some 201) "created") = None
      /\ Status (mkResponseWriter (mkHttpWriter (Some 201) "created") 201)
         = http_StatusOK
      /\ written_codes handler_tick = []).
Proof.
  refine (X16_single_commit_status_agrees handler_tick fresh_writer
            state_with_metrics (set_clock 250000000 state_with_metrics)
            (mkResponseWriter (mkHttpWriter (Some 201) "created") 201) []
            eq_refl _ eq_refl eq_refl).
  repeat constructor; simpl; lia.
Defined.

(** X17. A [WriteHeader] that comes after a [Write] is too late for the
    server, which has already sent 200, but the middleware still takes it:
    for a handler that starts by writing body bytes to a fresh writer, the
    server's writer holds 200 whatever follows, while the tracked status is
    the code of the last [WriteHeader] the handler makes later on (200 if
    it makes none). *)
Theorem X17_late_WriteHeader_is_tracked
    (data : string) (rest : http_Handler) (w : http_ResponseWriter)
    (s s1 : State) (rw : responseWriter) (t1 : list event) :
  committed w = None ->
  ServeHTTP (OpWrite data :: rest) (NewResponseWriter w) s = (Returned rw, s1, t1) ->
  committed (ResponseWriter rw) = Some http_StatusOK
  /\ Status rw = List.last (written_codes rest) http_StatusOK.
Proof.
  intros Hw Hrun. split.
  - rewrite (ServeHTTP_committed _ _ _ _ _ _ Hrun). simpl. now rewrite Hw.
  - unfold Status. now rewrite (ServeHTTP_statusCode _ _ _ _ _ _ Hrun).
Qed.

Lemma X17_witness :
  committed (mkHttpWriter (Some 200) "partial") = Some http_StatusOK
  /\ Status (mkResponseWriter (mkHttpWriter (Some 200) "partial") 500)
     = List.last (written_codes [OpWriteHeader 500]) http_StatusOK.
Proof.
  exact (X17_late_WriteHeader_is_tracked "partial" [OpWriteHeader 500] fresh_writer
           initial_state initial_state
           (mkResponseWriter (mkHttpWriter (Some 200) "partial") 500) []
           eq_refl eq_refl).
Defined.

(** *** The recorded duration *)

Lemma Duration_Seconds_exact (d : Z) : (Duration_Seconds d == d # 1000000000)%Q.
Proof.
  unfold Duration_Seconds, Qeq, Qplus, inject_Z. simpl.
  pose proof (Z.quot_rem' d 1000000000) as H. nia.
Qed.

Lemma Duration_Seconds_nonneg (d : Z) : 0 <= d -> (0 <= Duration_Seconds d)%Q.
Proof.
  intros Hd. rewrite Duration_Seconds_exact. unfold Qle. simpl. lia.
Qed.

(** X18. The duration the middleware records is never negative when the
    clock has not gone backwards between the start of the wrapper and the
    return of the handler, it is zero when no time has passed, and a
    request that took no longer than another never records more.  (The
    recorded value stands for whole seconds plus the remaining nanoseconds
    over 10^9, before its rounding to a float64, which keeps the order.) *)
Theorem X18_recorded_duration
    (next : http_Handler) (w : http_ResponseWriter) (r : Request)
    (s s1 : State) (rw : responseWriter) (t1 : list event)
    (c : Int64Counter) (h : Float64Histogram) :
  ServeHTTP next (NewResponseWriter w) s = (Returned rw, s1, t1) ->
  metrics s1 = mkMetrics (Some c) (Some h) ->
  exists (seconds : Q) (attrs : list KeyValue),
    trace_of (MetricsMiddleware next w r s)
    = t1 ++ [EvAdd c 1 attrs; EvRecord h seconds attrs]
    /\ (clock s <= clock s1 -> (0 <= seconds)%Q)
    /\ (clock s1 = clock s -> (seconds == 0)%Q)
    /\ (forall d : Z, clock s1 - clock s <= d -> (seconds <= Duration_Seconds d)%Q).
Proof.
  intros Hrun Hm. rewrite MetricsMiddleware_unfold, Hrun, Hm.
  do 2 eexists. split; [reflexivity|]. split; [|split].
  - intros Hle. apply Duration_Seconds_nonneg. lia.
  - intros ->. rewrite Z.sub_diag. reflexivity.
  - intros d Hd. rewrite !Duration_Seconds_exact. unfold Qle. simpl. lia.
Qed.

Lemma X18_witness :
  exists (seconds : Q) (attrs : list KeyValue),
    trace_of (MetricsMiddleware handler_tick fresh_writer sample_request
                                state_with_metrics)
    = [] ++ [EvAdd sample_counter 1 attrs; EvRecord sample_histogram seconds attrs]
    /\ (0 <= seconds)%Q.
Proof.
  destruct (X18_recorded_duration handler_tick fresh_writer sample_request
              state_with_metrics (set_clock 250000000 state_with_metrics)
              (mkResponseWriter (mkHttpWriter (Some 201) "created") 201) []
              sample_counter sample_histogram eq_refl eq_refl)
    as (seconds & attrs & H1 & H2 & _).
  exists seconds, attrs. split; [exact H1|]. apply H2. simpl. lia.
Defined.

(** *** Counting requests *)

Lemma counter_total_app (t1 t2 : list event) :
  counter_total (t1 ++ t2) = counter_total t1 + counter_total t2.
Proof. induction t1 as [|e t1 IH]; simpl; [reflexivity|]. rewrite IH. lia. Qed.

Lemma records_app (t1 t2 : list event) :
  records (t1 ++ t2) = (records t1 + records t2)%nat.
Proof. unfold records. now rewrite List.filter_app, List.length_app. Qed.

Lemma ServeHTTP_well_behaved (next : http_Handler) :
  well_behaved_handler next ->
  forall (rw : responseWriter) (s : State),
    exists rw' s' t,
      ServeHTTP next rw s = (Returned rw', s', t)
      /\ metrics s' = metrics s /\ counter_total t = 0 /\ records t = 0%nat.
Proof.
  induction next as [|[code|data|work] rest IH]; intros Hwb rw s;
    cbn [ServeHTTP well_behaved_handler] in *.
  - exists rw, s, []. auto.
  - apply IH. exact Hwb.
  - apply IH. exact Hwb.
  - destruct Hwb as [Hwork Hrest].
    destruct (Hwork s) as (s1 & t1 & Hw & Hm1 & Hc1 & Hr1).
    destruct (IH Hrest rw s1) as (rw' & s2 & t2 & Hs & Hm2 & Hc2 & Hr2).
    exists rw', s2, (t1 ++ t2). unfold bind. rewrite Hw, Hs.
    rewrite counter_total_app, records_app, Hc1, Hc2, Hr1, Hr2.
    repeat split; congruence.
Qed.

Lemma MetricsMiddleware_counts_one
      (next : http_Handler) (w : http_ResponseWriter) (r : Request) (s : State) :
  well_behaved_handler next ->
  is_Some (RequestCounter (metrics s)) ->
  is_Some (RequestHistogram (metrics s)) ->
  exists w' s' t,
    MetricsMiddleware next w r s = (Returned w', s', t)
    /\ metrics s' = metrics s /\ counter_total t = 1 /\ records t = 1%nat.
Proof.
  intros Hwb [c Hc] [h Hh].
  destruct (ServeHTTP_well_behaved next Hwb (NewResponseWriter w) s)
    as (rw & s1 & t1 & Hrun & Hm & Hct & Hrt).
  rewrite MetricsMiddleware_unfold, Hrun, Hm, Hc, Hh.
  do 3 eexists. split; [reflexivity|].
  rewrite counter_total_app, records_app, Hct, Hrt. auto.
Qed.

(** X19. The request counter counts requests.  With the instruments set,
    a server that handles any number of requests one after the other
    through [MetricsMiddleware], with handlers that return and do not
    record anything themselves, never panics, keeps the instruments, and
    has added to the counter exactly the number of requests handled and
    recorded exactly as many durations. *)
Theorem X19_counter_counts_requests
    (rs : list (http_Handler * http_ResponseWriter * Request)) (s : State) :
  Forall (fun x => well_behaved_handler (fst (fst x))) rs ->
  is_Some (RequestCounter (metrics s)) ->
  is_Some (RequestHistogram (metrics s)) ->
  outcome_of (serve_requests rs s) = Returned tt
  /\ metrics (state_of (serve_requests rs s)) = metrics s
  /\ counter_total (trace_of (serve_requests rs s)) = Z.of_nat (length rs)
  /\ records (trace_of (serve_requests rs s)) = length rs.
Proof.
  revert s. induction rs as [|[[next w] r] rest IH]; intros s Hwb Hc Hh.
  - repeat split.
  - apply Forall_cons_1 in Hwb as [Hnext Hrest]. simpl in Hnext.
    destruct (MetricsMiddleware_counts_one next w r s Hnext Hc Hh)
      as (w' & s1 & t1 & Hrun & Hm1 & Hct & Hrt).
    rewrite <- Hm1 in Hc, Hh.
    destruct (IH s1 Hrest Hc Hh) as (Ho & Hm2 & Hct2 & Hrt2).
    cbn [serve_requests]. unfold bind. rewrite Hrun.
    destruct (serve_requests rest s1) as [[o s2] t2].
    unfold outcome_of, state_of, trace_of in *; simpl in *.
    rewrite counter_total_app, records_app, Hct, Hrt, Hct2, Hrt2.
    repeat split; try congruence; lia.
Qed.

Lemma X19_witness :
  counter_total
    (trace_of (serve_requests
                 [(handler_404_then_200, fresh_writer, sample_request);
                  (handler_tick, fresh_writer, sample_request);
                  (handler_write_then_500, fresh_writer, sample_request)]
                 state_with_metrics))
  = 3.
Proof.
  refine (proj1 (proj2 (proj2
            (X19_counter_counts_requests
               [(handler_404_then_200, fresh_writer, sample_request);
                (handler_tick, fresh_writer, sample_request);
                (handler_write_then_500, fresh_writer, sample_request)]
               state_with_metrics _ _ _)))).
  - repeat constructor. intros s. do 2 eexists. repeat split.
  - eexists. reflexivity.
  - eexists. reflexivity.
Defined.

(* ===================================================================== *)
(** ** The outbound client and the registered propagator *)

Lemma NewTraceProvider_nil_keeps_propagator (W : World) (service : string)
      (s : State) :
  outcome_of (NewTraceProvider W service s) = Returned (None, cleanup_empty) ->
  otel_TextMapPropagator (state_of (NewTraceProvider W service s))
  = otel_TextMapPropagator s.
Proof.
  rewrite NewTraceProvider_unfold.
  destruct (initCollector_cases W s) as [conn ?| | |cause|conn];
    unfold outcome_of, state_of; simpl; auto;
    (destruct (otlptracegrpc_New W conn);
     [|destruct (newResource W service)]); simpl; auto; discriminate.
Qed.

(** X20. Outgoing requests carry no injected header until tracing has been
    set up: while the propagator registered in package [otel] is the
    default, empty one, [HTTPClient] leaves the request, header included,
    exactly as it was given, and a [NewTraceProvider] call that returns the
    nil provider does not change that.  The client returned always has a
    timeout of 20 seconds and the instrumented default transport, and the
    call writes no package variable. *)
Theorem X20_no_injection_before_setup
    (O : Outside) (ctx : Ctx) (req : OutboundRequest) (s : State) :
  otel_TextMapPropagator s = [] ->
  let client := mkClient 20000000000 (otelhttp_NewTransport http_DefaultTransport) in
  HTTPClient O ctx req s = (Returned (req, client), s, [])
  /\ forall (W : World) (service : string),
       outcome_of (NewTraceProvider W service s) = Returned (None, cleanup_empty) ->
       HTTPClient O ctx req (state_of (NewTraceProvider W service s))
       = (Returned (req, client), state_of (NewTraceProvider W service s), []).
Proof.
  intros Hp client.
  assert (Hgen : forall s', otel_TextMapPropagator s' = [] ->
                            HTTPClient O ctx req s' = (Returned (req, client), s', [])).
  { intros s' Hs'. unfold HTTPClient. run_monad. rewrite Hs'. simpl.
    destruct req; reflexivity. }
  split; [apply Hgen, Hp|].
  intros W service Hnil. apply Hgen.
  now rewrite (NewTraceProvider_nil_keeps_propagator W service s Hnil).
Qed.

Lemma X20_witness :
  HTTPClient sample_outside ctx_Background sample_outbound
             (state_of (NewTraceProvider world_off "svc" initial_state))
  = (Returned (sample_outbound,
               mkClient 20000000000 (otelhttp_NewTransport http_DefaultTransport)),
     state_of (NewTraceProvider world_off "svc" initial_state), []).
Proof.
  apply (proj2 (X20_no_injection_before_setup sample_outside ctx_Background
                  sample_outbound initial_state eq_refl) world_off "svc").
  reflexivity.
Defined.

(** X21. After a successful [NewTraceProvider], [DoRequest] sends the
    request with the header the registered propagator injects, first
    Baggage and then TraceContext, over a client with a 20 second timeout
    and the instrumented default transport; it returns what [client.Do]
    answers, leaves method, path and context of the request alone and
    writes no package variable. *)
Theorem X21_DoRequest_after_setup
    (W : World) (service : string) (s : State) (tp : TracerProvider)
    (clean : cleanupFn) (O : Outside) (ctx : Ctx) (req : OutboundRequest) :
  outcome_of (NewTraceProvider W service s) = Returned (Some tp, clean) ->
  let s' := state_of (NewTraceProvider W service s) in
  let sent :=
    mkOutbound (out_Request req)
      (propagator_Inject O TraceContext ctx
         (propagator_Inject O Baggage ctx (out_Header req))) in
  let client := mkClient 20000000000 (otelhttp_NewTransport http_DefaultTransport) in
  DoRequest O ctx req s' = (Returned (sent, client_Do O client sent), s', []).
Proof.
  intros Hout s' sent client. subst s' sent client. revert Hout.
  rewrite NewTraceProvider_unfold.
  destruct (initCollector W s) as [[[[conn|err]|p] s1] t1];
    unfold outcome_of, state_of; simpl; try discriminate.
  destruct (otlptracegrpc_New W conn); simpl; [discriminate|].
  destruct (newResource W service) as [res|err]; simpl; [|discriminate].
  intros _. reflexivity.
Qed.

Lemma X21_witness :
  outcome_of (DoRequest sample_outside ctx_Background sample_outbound
                (state_of (NewTraceProvider world_on "svc" initial_state)))
  = Returned
      (mkOutbound (mkRequest "GET" "/users" ctx_Background)
         (<["Traceparent" := ["00-trace-span-01"]]>
            (<["Baggage" := ["user=alice"]]>
               (<["Accept" := ["application/json"]]> ∅))),
       GoOk (mkResponse 200 "ok")).
Proof.
  rewrite (X21_DoRequest_after_setup world_on "svc" initial_state _ _
             sample_outside ctx_Background sample_outbound eq_refl).
  reflexivity.
Defined.

(* ===================================================================== *)
(** ** Span names *)

Lemma pretty_N_char_no_colon (x : N) :
  (pretty_N_char x =? ":")%char = false.
Proof. unfold pretty_N_char. repeat case_match; reflexivity. Qed.

Lemma pretty_N_go_no_colon (x : N) :
  forall acc : string, has_colon (pretty_N_go x acc) = has_colon acc.
Proof.
  induction (N.lt_wf_0 x) as [x _ IH]. intros acc.
  destruct (decide (0 < x)%N) as [Hpos|Hzero].
  - rewrite pretty_N_go_step by exact Hpos.
    rewrite IH by (apply N.div_lt; [exact Hpos|reflexivity]).
    simpl. now rewrite pretty_N_char_no_colon.
  - assert (x = 0%N) as -> by lia. now rewrite pretty_N_go_0.
Qed.

Lemma pretty_Z_no_colon (z : Z) : has_colon (pretty z) = false.
Proof.
  destruct z as [|p|p]; [reflexivity| |].
  - change (pretty (Z.pos p)) with (pretty_N_go (N.pos p) "").
    now rewrite pretty_N_go_no_colon.
  - change (pretty (Z.neg p)) with ("-" +:+ pretty_N_go (N.pos p) "").
    change (has_colon (pretty_N_go (N.pos p) "") = false).
    now rewrite pretty_N_go_no_colon.
Qed.

Lemma has_colon_separator (a d : string) : has_colon (a +:+ ":" +:+ d) = true.
Proof.
  induction a as [|c a IH]; simpl; [reflexivity|].
  rewrite IH. apply orb_true_r.
Qed.

Lemma separator_splits_once (a b d1 d2 : string) :
  has_colon d1 = false -> has_colon d2 = false ->
  a +:+ ":" +:+ d1 = b +:+ ":" +:+ d2 -> a = b /\ d1 = d2.
Proof.
  intros H1 H2. revert b.
  induction a as [|c a IH]; intros [|c' b] H.
  - change (String ":" d1 = String ":" d2) in H. now injection H.
  - change (String ":" d1 = String c' (b +:+ ":" +:+ d2)) in H.
    injection H as _ H. rewrite H, has_colon_separator in H1. discriminate.
  - change (String c (a +:+ ":" +:+ d1) = String ":" d2) in H.
    injection H as _ H. rewrite <- H, has_colon_separator in H2. discriminate.
  - change (String c (a +:+ ":" +:+ d1) = String c' (b +:+ ":" +:+ d2)) in H.
    injection H as -> H. destruct (IH b H) as [-> ->]. auto.
Qed.

(** X22. The automatic span names identify the call site: with tracing set
    up, two [StartSpan] calls return spans of the same name only if they
    come from the same function and the same line, whatever characters the
    function names contain. *)
Theorem X22_span_names_identify_callers
    (c1 c2 : Caller) (ctx : Ctx) (opts : list SpanStartOption) (s : State)
    (tp : TracerProvider) (name : string) (conn : Conn) :
  tracer s = Some (SdkTracer tp name) ->
  grpcConnection s = Some conn ->
  outcome_of (StartSpan c1 ctx opts s) = outcome_of (StartSpan c2 ctx opts s) ->
  c1 = c2.
Proof.
  intros Htr Hconn. unfold StartSpan. run_monad. rewrite Htr, Hconn.
  unfold outcome_of; simpl. intros H. injection H as H.
  apply separator_splits_once in H as [Hfn Hline]; auto using pretty_Z_no_colon.
  apply (inj pretty) in Hline.
  destruct c1, c2; simpl in *; congruence.
Qed.

Lemma X22_witness :
  mkCaller "main.handle" 42 = mkCaller "main.handle" 42.
Proof.
  apply (X22_span_names_identify_callers
           (mkCaller "main.handle" 42) (mkCaller "main.handle" 42)
           ctx_Background []
           (state_of (NewTraceProvider world_on "svc" initial_state))
           (mkTracerProvider AlwaysSample
              [("service.name", attribute_String "svc");
               ("service.version", attribute_String "");
               ("deployment.environment", attribute_String "");
               ("host.name", attribute_String "node-1")]
              (BatchSpanProcessor (mkTraceExporter 7%nat)))
           "svc" 7%nat); reflexivity.
Defined.

(* ===================================================================== *)
(** ** An invariant of setup *)

Lemma setup_invariant_memoize (s : State) (conn : Conn) :
  setup_invariant s -> setup_invariant (set_grpcConnection (Some conn) s).
Proof.
  unfold setup_invariant. simpl. intros (H1 & H2 & H3 & H4).
  split; [|split; [|split]].
  - intros tp name Htr. split; [eexists; reflexivity|].
    exact (proj2 (H1 tp name Htr)).
  - exact H2.
  - intros Hc. split; [eexists; reflexivity|]. exact (proj2 (H3 Hc)).
  - intros _. eexists; reflexivity.
Qed.

Lemma initCollector_invariant (W : World) (s : State) :
  setup_invariant s -> setup_invariant (state_of (initCollector W s)).
Proof.
  intros Hinv. destruct (initCollector_cases W s); unfold state_of; simpl; auto.
  now apply setup_invariant_memoize.
Qed.

Lemma NewTraceProvider_invariant (W : World) (service : string) (s : State) :
  setup_invariant s -> setup_invariant (state_of (NewTraceProvider W service s)).
Proof.
  intros Hinv. apply (initCollector_invariant W) in Hinv.
  rewrite NewTraceProvider_unfold.
  destruct (initCollector W s) as [[[[conn|err]|p] s1] t1] eqn:Hinit;
    unfold state_of in *; simpl in *; auto.
  - destruct (initCollector_ok_memoizes _ _ _ _ _ Hinit) as (Hconn & _).
    destruct (otlptracegrpc_New W conn); simpl; auto.
    destruct (newResource W service); simpl; auto.
    destruct Hinv as (H1 & H2 & H3 & H4).
    unfold setup_invariant; simpl. rewrite Hconn.
    repeat split; try tauto; eauto.
  - destruct Hinv as (H1 & H2 & H3 & H4).
    unfold setup_invariant; simpl.
    repeat split; try tauto; try discriminate.
Qed.

Lemma NewMeterProvider_invariant (W : World) (service : string) (s : State) :
  setup_invariant s -> setup_invariant (state_of (NewMeterProvider W service s)).
Proof.
  intros Hinv. apply (initCollector_invariant W) in Hinv.
  rewrite NewMeterProvider_unfold.
  destruct (initCollector W s) as [[[[conn|err]|p] s1] t1] eqn:Hinit;
    unfold state_of in *; simpl in *; auto.
  destruct (initCollector_ok_memoizes _ _ _ _ _ Hinit) as (Hconn & _).
  destruct (otlpmetricgrpc_New W conn); simpl; auto.
  destruct (newResource W service); simpl; auto.
  destruct Hinv as (H1 & H2 & H3 & H4).
  destruct (meter_Int64Counter W "http_requests_total");
    [|destruct (meter_Float64Histogram W "http_request_duration_seconds")];
    unfold setup_invariant; simpl; rewrite Hconn;
    (split; [|split; [|split]]).
  all: try exact H2.
  all: try (intros tp name Htr; split; [eexists; reflexivity|];
            exact (proj2 (H1 tp name Htr))).
  all: try (intros _; split; eexists; reflexivity).
  all: try (intros _; eexists; reflexivity).
  split; intros _; eexists; reflexivity.
Qed.

Lemma run_setup_invariant (c : setupCall) (W : World) (s : State) :
  setup_invariant s -> setup_invariant (state_of (run_setup c W s)).
Proof.
  intros Hinv. destruct c as [|service|service]; simpl; unfold bind, ret.
  - pose proof (initCollector_invariant W s Hinv) as H.
    destruct (initCollector W s) as [[[r|p] s1] t1]; exact H.
  - pose proof (NewTraceProvider_invariant W service s Hinv) as H.
    destruct (NewTraceProvider W service s) as [[[r|p] s1] t1]; exact H.
  - pose proof (NewMeterProvider_invariant W service s Hinv) as H.
    destruct (NewMeterProvider W service s) as [[[r|p] s1] t1]; exact H.
Qed.

Lemma run_setups_invariant (cs : list (setupCall * World)) :
  forall s : State,
    setup_invariant s -> setup_invariant (state_of (run_setups cs s)).
Proof.
  induction cs as [|[c W] rest IH]; intros s Hinv; simpl; [exact Hinv|].
  unfold bind. pose proof (run_setup_invariant c W s Hinv) as Hstep.
  destruct (run_setup c W s) as [[[[]|p] s1] t1]; [|exact Hstep].
  specialize (IH s1 Hstep).
  destruct (run_setups rest s1) as [[r s2] t2]. exact IH.
Qed.

(** X23. Whatever setup calls a process makes from its start, in whatever
    order and worlds, and whether they succeed or fail: a provider is
    registered or an instrument set only while a channel is memoized; the
    package tracer is an SDK tracer only while a tracer provider is
    registered and a channel memoized; and the counter and the histogram
    are either both set or both nil.  So after setup calls alone,
    [StartSpan] yields a no-op span exactly when the package tracer is nil
    or the no-op tracer. *)
Theorem X23_setup_invariant (cs : list (setupCall * World)) :
  let s := state_of (run_setups cs initial_state) in
  setup_invariant s
  /\ forall (caller : Caller) (ctx : Ctx) (opts : list SpanStartOption),
       outcome_of (StartSpan caller ctx opts s)
       = Returned (ctx_WithSpan ctx NoopSpan, NoopSpan)
       <-> (tracer s = None \/ exists name, tracer s = Some (NoopTracer name)).
Proof.
  intros s.
  assert (Hinv : setup_invariant s).
  { apply run_setups_invariant. unfold setup_invariant, initial_state; simpl.
    split; [|split; [|split]].
    - intros tp name Htr. discriminate.
    - split; intros [x Hx]; discriminate.
    - intros [x Hx]. discriminate.
    - intros [[x Hx]|[x Hx]]; discriminate. }
  split; [exact Hinv|].
  intros caller ctx opts. unfold StartSpan. run_monad.
  destruct Hinv as (H1 & _).
  destruct (tracer s) as [[name|tp name]|] eqn:Htr.
  - destruct (grpcConnection s); unfold outcome_of; simpl; split; eauto.
  - destruct (H1 tp name eq_refl) as ([conn Hc] & _). rewrite Hc.
    unfold outcome_of; simpl. split; [discriminate|].
    intros [H|[n H]]; discriminate.
  - unfold outcome_of; simpl. split; auto.
Qed.
